(** * TdarkChess: the move-application state machine of [chess_play.py]

    A shallow embedding of [MainWindow] (its constructor, [connectNetwork],
    [_socketReader], [performMove] and [mousePressEvent]) over the interface
    of the chess rules library the program imports, together with a model of
    that library for standard chess, and the properties of the peer
    synchronisation protocol stated about them. *)

From Stdlib Require Import ZArith List Bool Ascii String DecimalString Lia.
From stdpp Require Import base list strings.
Import ListNotations.
Open Scope string_scope.

(** ** Python values and exceptions *)

(** The exception classes the modelled code can raise; [SocketError] is
    [socket.error]. *)
Inductive exn : Set := ValueError | TypeError | SocketError.

(** A pure call that either returns or raises. *)
Inductive result (A : Type) : Type :=
| Ok (a : A)
| Err (e : exn).
Arguments Ok {A} a.
Arguments Err {A} e.

#[global] Instance exn_eq_dec : EqDecision exn.
Proof. solve_decision. Defined.

#[global] Instance result_eq_dec {A} `{EqDecision A} : EqDecision (result A).
Proof. solve_decision. Defined.

(** ** Squares, pieces and moves ([chess.Move]) *)

Definition Square := nat.

(** [chess.WHITE = True], [chess.BLACK = False]. *)
Definition Color := bool.
Definition WHITE : Color := true.
Definition BLACK : Color := false.

Inductive PieceType : Set := PAWN | KNIGHT | BISHOP | ROOK | QUEEN | KING.

#[global] Instance PieceType_eq_dec : EqDecision PieceType.
Proof. solve_decision. Defined.

Record Piece : Set := mkPiece { piece_type : PieceType; color : Color }.

#[global] Instance Piece_eq_dec : EqDecision Piece.
Proof. solve_decision. Defined.

Record Move : Set := mkMove {
  from_square : Square;
  to_square : Square;
  promotion : option PieceType
}.

#[global] Instance Move_eq_dec : EqDecision Move.
Proof. solve_decision. Defined.

Definition FILE_NAMES : list string := ["a"; "b"; "c"; "d"; "e"; "f"; "g"; "h"].
Definition RANK_NAMES : list string := ["1"; "2"; "3"; "4"; "5"; "6"; "7"; "8"].

(** [SQUARE_NAMES = [f + r for r in RANK_NAMES for f in FILE_NAMES]]:
    a1 is square 0, h1 is 7, a8 is 56, h8 is 63. *)
Definition SQUARE_NAMES : list string :=
  flat_map (fun r => map (fun f => f +:+ r) FILE_NAMES) RANK_NAMES.

Definition PIECE_TYPES : list PieceType := [PAWN; KNIGHT; BISHOP; ROOK; QUEEN; KING].

Definition piece_symbol (p : PieceType) : string :=
  match p with
  | PAWN => "p" | KNIGHT => "n" | BISHOP => "b"
  | ROOK => "r" | QUEEN => "q" | KING => "k"
  end.

(** Python's [list.index]: position of the first element equal to [x];
    [None] stands for the [ValueError] it raises when there is none. *)
Fixpoint list_index {A} `{EqDecision A} (x : A) (l : list A) : option nat :=
  match l with
  | [] => None
  | y :: l' => if decide (x = y) then Some 0 else S <$> list_index x l'
  end.

Definition square_of_name (s : string) : result Square :=
  match list_index s SQUARE_NAMES with
  | Some i => Ok i
  | None => Err ValueError
  end.

Definition piece_of_symbol (s : string) : result PieceType :=
  match list_index s (map piece_symbol PIECE_TYPES) with
  | Some i => match PIECE_TYPES !! i with
              | Some p => Ok p
              | None => Err ValueError
              end
  | None => Err ValueError
  end.

(** The null move [Move(0, 0)], written ["0000"]. *)
Definition null_move : Move := mkMove 0 0 None.

(** Modelled from the spec: [chess.Move.from_uci], the decoder of the Move
    Codec (sections 4.1 and 6), belongs to the chess library the program
    imports and is not part of the repository.  The token is
    [<file><rank><file><rank>] with an optional promotion letter; the parse is
    lexical and fails with [ValueError] on anything else.  As in the library,
    ["0000"] is the null move, the squares are looked up in [SQUARE_NAMES]
    and the promotion letter among the six lower-case piece symbols (the
    promotion letter is looked up first).  Drop tokens of the Crazyhouse
    variant are outside the model. *)
Definition from_uci (uci : string) : result Move :=
  if decide (uci = "0000") then Ok null_move
  else if decide (String.length uci = 4) then
    match square_of_name (substring 0 2 uci) with
    | Err e => Err e
    | Ok f =>
        match square_of_name (substring 2 2 uci) with
        | Err e => Err e
        | Ok t => Ok (mkMove f t None)
        end
    end
  else if decide (String.length uci = 5) then
    match piece_of_symbol (substring 4 1 uci) with
    | Err e => Err e
    | Ok p =>
        match square_of_name (substring 0 2 uci) with
        | Err e => Err e
        | Ok f =>
            match square_of_name (substring 2 2 uci) with
            | Err e => Err e
            | Ok t => Ok (mkMove f t (Some p))
            end
        end
    end
  else Err ValueError.

(** [from_uci] applied to an attribute that may still hold [None]:
    [len(None)] raises [TypeError]. *)
Definition from_uci_obj (o : option string) : result Move :=
  match o with
  | None => Err TypeError
  | Some s => from_uci s
  end.

Definition square_name (sq : Square) : string :=
  default "" (SQUARE_NAMES !! sq).

(** Modelled from the spec: [chess.Move.uci], the encoder of the Move Codec
    (section 4.1, "inverse of decode"), is a library method the program never
    calls.  Origin square name, destination square name, then the promotion
    letter if any; the null move is ["0000"]. *)
Definition uci (m : Move) : string :=
  match promotion m with
  | Some p => square_name (from_square m) +:+ square_name (to_square m) +:+ piece_symbol p
  | None =>
      if decide (m = null_move) then "0000"
      else square_name (from_square m) +:+ square_name (to_square m)
  end.

(** A move between two squares of the board. *)
Definition valid_move (m : Move) : Prop :=
  from_square m < 64 /\ to_square m < 64.

(** What the decoder relies on in the name of square [i]: two characters,
    the first not a zero, found again at index [i]. *)
Definition square_name_checks (i : Square) : bool :=
  match square_name i with
  | String c1 (String c2 EmptyString) =>
      negb (Ascii.eqb c1 "0") && bool_decide (square_of_name (square_name i) = Ok i)
  | _ => false
  end.

(** ** The rules engine consumed by the program *)

(** Modelled from the spec: the Rules Engine interface (section 6), that is
    the part of the [chess] library [chess_play.py] calls.  The library is
    not part of the repository, so the program is embedded over any
    implementation of it on any type [Board] of positions; [PyChess] below
    gives one for standard chess.
    [board_of_fen fen chess960] is the constructor
    [chess.Board(fen=fen, chess960=chess960)], which raises [ValueError] on
    text that is not a FEN; [from_chess960_pos n] takes the number drawn by
    [random.randint(0, 959)]. *)
Class RulesEngine (Board : Type) : Type := {
  starting_board : Board;
  from_chess960_pos : nat -> Board;
  board_of_fen : string -> bool -> result Board;
  fen : Board -> string;
  is_legal : Board -> Move -> bool;
  push : Board -> Move -> Board;
  is_check : Board -> bool;
  is_checkmate : Board -> bool;
  king : Board -> Color -> option Square;
  turn : Board -> Color;
  piece_at : Board -> Square -> option Piece
}.

(** ** The window object and its methods *)

Inductive Level : Set := DEBUG | INFO | ERROR | CRITICAL.

(** [str(True)] and [str(False)]. *)
Definition str_bool (b : bool) : string := if b then "True" else "False".

(** [str(n)] for a non-negative integer. *)
Definition str_nat (n : nat) : string := NilEmpty.string_of_uint (Nat.to_uint n).

(** [chr(n)]. *)
Definition chr (n : nat) : string := String (ascii_of_nat n) EmptyString.

(** [str(piece)]: the piece symbol, upper case for white. *)
Definition str_piece (p : Piece) : string :=
  let s := piece_symbol (piece_type p) in
  if color p
  then match s with
       | String c _ => String (ascii_of_nat (nat_of_ascii c - 32)) EmptyString
       | EmptyString => EmptyString
       end
  else s.

(** [str(x)] where [x] may be [None]. *)
Definition str_opt {A} (f : A -> string) (o : option A) : string :=
  match o with Some a => f a | None => "None" end.

(** Truth value of the [--ip] option: absent ([None]) and the empty string
    both count as false. *)
Definition truthy (ip : option string) : bool :=
  match ip with
  | Some s => negb (String.eqb s "")
  | None => false
  end.

(** The connection behind [self.appSocket], as [send] finds it: on a broken
    one [send] raises [socket.error]. *)
Inductive Socket : Set := Connected | Broken.

Section Window.
Context {Board : Type} {E : RulesEngine Board}.

(** The attributes of [MainWindow] that the protocol reads or writes.  The
    Qt side is kept as far as the protocol can observe it: [popup] is the
    text of the checkmate label, [updates] counts the repaint requests
    ([self.update()]), [sent] lists what was written to [appSocket] (oldest
    first), [appSocket] is the state of its connection and [log] the records
    the methods below hand to [logging] at the levels [INFO] and above
    (oldest first). *)
Record MainWindow : Type := mkWindow {
  is960 : bool;
  chessboard : Board;
  pieceToMove : option Piece * option string;
  flipped : bool;
  isMyMove : bool;
  lastMove : option Move;
  check : option Square;
  lastReceived : option string;
  popup : option string;
  updates : nat;
  sent : list string;
  log : list (Level * string);
  appSocket : Socket
}.

Definition set_chessboard (b : Board) (w : MainWindow) : MainWindow :=
  mkWindow (is960 w) b (pieceToMove w) (flipped w) (isMyMove w) (lastMove w)
           (check w) (lastReceived w) (popup w) (updates w) (sent w) (log w) (appSocket w).
Definition set_pieceToMove (p : option Piece * option string) (w : MainWindow) : MainWindow :=
  mkWindow (is960 w) (chessboard w) p (flipped w) (isMyMove w) (lastMove w)
           (check w) (lastReceived w) (popup w) (updates w) (sent w) (log w) (appSocket w).
Definition set_isMyMove (b : bool) (w : MainWindow) : MainWindow :=
  mkWindow (is960 w) (chessboard w) (pieceToMove w) (flipped w) b (lastMove w)
           (check w) (lastReceived w) (popup w) (updates w) (sent w) (log w) (appSocket w).
Definition set_lastMove (m : option Move) (w : MainWindow) : MainWindow :=
  mkWindow (is960 w) (chessboard w) (pieceToMove w) (flipped w) (isMyMove w) m
           (check w) (lastReceived w) (popup w) (updates w) (sent w) (log w) (appSocket w).
Definition set_check (c : option Square) (w : MainWindow) : MainWindow :=
  mkWindow (is960 w) (chessboard w) (pieceToMove w) (flipped w) (isMyMove w) (lastMove w)
           c (lastReceived w) (popup w) (updates w) (sent w) (log w) (appSocket w).
Definition set_lastReceived (r : option string) (w : MainWindow) : MainWindow :=
  mkWindow (is960 w) (chessboard w) (pieceToMove w) (flipped w) (isMyMove w) (lastMove w)
           (check w) r (popup w) (updates w) (sent w) (log w) (appSocket w).
Definition set_popup (p : option string) (w : MainWindow) : MainWindow :=
  mkWindow (is960 w) (chessboard w) (pieceToMove w) (flipped w) (isMyMove w) (lastMove w)
           (check w) (lastReceived w) p (updates w) (sent w) (log w) (appSocket w).
Definition set_updates (n : nat) (w : MainWindow) : MainWindow :=
  mkWindow (is960 w) (chessboard w) (pieceToMove w) (flipped w) (isMyMove w) (lastMove w)
           (check w) (lastReceived w) (popup w) n (sent w) (log w) (appSocket w).
Definition set_sent (s : list string) (w : MainWindow) : MainWindow :=
  mkWindow (is960 w) (chessboard w) (pieceToMove w) (flipped w) (isMyMove w) (lastMove w)
           (check w) (lastReceived w) (popup w) (updates w) s (log w) (appSocket w).
Definition set_log (l : list (Level * string)) (w : MainWindow) : MainWindow :=
  mkWindow (is960 w) (chessboard w) (pieceToMove w) (flipped w) (isMyMove w) (lastMove w)
           (check w) (lastReceived w) (popup w) (updates w) (sent w) l (appSocket w).
Definition set_appSocket (c : Socket) (w : MainWindow) : MainWindow :=
  mkWindow (is960 w) (chessboard w) (pieceToMove w) (flipped w) (isMyMove w) (lastMove w)
           (check w) (lastReceived w) (popup w) (updates w) (sent w) (log w) c.

(** *** Methods as state transformers that may raise *)

(** How a method call ends: it returns a value or an exception escapes it;
    either way the attributes written so far stay written. *)
Inductive outcome (A : Type) : Type :=
| Returned (a : A) (w : MainWindow)
| Raised (e : exn) (w : MainWindow).
Arguments Returned {A} a w.
Arguments Raised {A} e w.

Definition M (A : Type) : Type := MainWindow -> outcome A.

Definition ret {A} (a : A) : M A := fun w => Returned a w.
Definition bind {A B} (m : M A) (k : A -> M B) : M B :=
  fun w => match m w with
           | Returned a w' => k a w'
           | Raised e w' => Raised e w'
           end.
Definition raise {A} (e : exn) : M A := fun w => Raised e w.
Definition get : M MainWindow := fun w => Returned w w.
Definition modify (f : MainWindow -> MainWindow) : M unit := fun w => Returned tt (f w).
Definition lift {A} (r : result A) : M A :=
  match r with Ok a => ret a | Err e => raise e end.

Notation "x <- m ;; k" := (bind m (fun x => k))
  (at level 100, m at next level, right associativity).
Notation "m ;; k" := (bind m (fun _ => k))
  (at level 100, right associativity).

Definition state_of {A} (o : outcome A) : MainWindow :=
  match o with Returned _ w => w | Raised _ w => w end.

Definition logging (l : Level) (msg : string) : M unit :=
  modify (fun w => set_log (log w ++ [(l, msg)]) w).

(** [self.appSocket.send(data)]: the bytes go out, or [socket.error] is
    raised when the connection is broken. *)
Definition appSocket_send (data : string) : M unit :=
  w <- get ;;
  match appSocket w with
  | Connected => modify (fun w => set_sent (sent w ++ [data]) w)
  | Broken => raise SocketError
  end.

(** [self.update()]: ask Qt to repaint the board. *)
Definition update : M unit := modify (fun w => set_updates (S (updates w)) w).

(** [focusWindow] only raises and activates the window. *)
Definition focusWindow : M unit := ret tt.

(** The nested function [_updateMoveOnboard] of [performMove]. *)
Definition _updateMoveOnboard (move : Move) : M bool :=
  modify (fun w => set_chessboard (push (chessboard w) move) w) ;;
  modify (set_lastMove (Some move)) ;;
  (w <- get ;;
   if is_check (chessboard w)
   then modify (set_check (king (chessboard w) (turn (chessboard w))))
   else modify (set_check None)) ;;
  update ;;
  (w <- get ;;
   if is_checkmate (chessboard w)
   then logging INFO "Checkmate" ;;
        modify (set_popup (Some (if turn (chessboard w)
                                 then "Checkmate! Black wins!"
                                 else "Checkmate! White wins!")))
   else ret tt) ;;
  focusWindow ;;
  ret true.

(** [MainWindow.performMove]. *)
Definition performMove (uci : string) : M bool :=
  move <- lift (from_uci uci) ;;
  w <- get ;;
  if is_legal (chessboard w) move then _updateMoveOnboard move
  else
    move <- lift (from_uci (uci +:+ "q")) ;;
    w <- get ;;
    if is_legal (chessboard w) move then _updateMoveOnboard move
    else
      logging ERROR "Move not legal" ;;
      w <- get ;;
      move <- lift (from_uci_obj (lastReceived w)) ;;
      modify (set_lastMove (Some move)) ;;
      ret false.

(** One turn of the [while True] loop of [_socketReader], on the bytes
    [socketObj.recv(1024)] returned. *)
Definition _socketReader_step (data : string) : M unit :=
  modify (set_lastReceived (Some data)) ;;
  logging INFO ("RECEIVED " +:+ data) ;;
  w <- get ;;
  if negb (isMyMove w) then
    ok <- performMove data ;;
    if ok then
      modify (set_isMyMove true) ;;
      logging INFO ("My Move:" +:+ str_bool true)
    else ret tt
  else ret tt.

(** [_socketReader] on the successive results of [recv]: the loop has no
    exit, so it ends only by an exception, which stops the reader thread;
    when the list is used up the thread is blocked in [recv]. *)
Fixpoint _socketReader (received : list string) : M unit :=
  match received with
  | [] => ret tt
  | data :: rest => _socketReader_step data ;; _socketReader rest
  end.

(** What a mouse press is to [mousePressEvent] once the pixel arithmetic of
    lines 178-182 (floating point) is done: outside the board widget, on it
    with another button, on its coordinate margin, or on the square in
    column [col] and row [row] of the picture, both counted from the top
    left corner and below 8. *)
Inductive MouseEvent : Set :=
| OutsideBoard
| OtherButton
| OnMargin
| OnSquare (col row : nat).

(** [getPostFromCoordinates] after the divisions. *)
Definition getPostFromCoordinates (col row : nat) : M (nat * nat) :=
  w <- get ;;
  let file := col in
  let rank := 7 - row in
  if flipped w then ret (7 - file, 7 - rank) else ret (file, rank).

(** [chess.square(file, rank)]. *)
Definition square (file rank : nat) : Square := rank * 8 + file.

(** Lines 188-192 of [mousePressEvent]: the local move attempt on the token
    made of the selected square and the clicked one. *)
Definition mousePressEvent_move (uci : string) : M unit :=
  logging INFO ("Got event " +:+ uci) ;;
  ok <- performMove uci ;;
  if ok then
    modify (set_isMyMove false) ;;
    appSocket_send uci ;;
    logging INFO ("Sent " +:+ uci)
  else ret tt.

(** [MainWindow.mousePressEvent]. *)
Definition mousePressEvent (event : MouseEvent) : M unit :=
  w <- get ;;
  match event with
  | OutsideBoard => ret tt
  | _ =>
    if negb (isMyMove w) then ret tt
    else
      match event with
      | OnSquare col row =>
          fr <- getPostFromCoordinates col row ;;
          let file := fr.1 in
          let rank := fr.2 in
          let piece := piece_at (chessboard w) (square file rank) in
          let coordinates := chr (file + 97) +:+ str_nat (rank + 1) in
          sel <-
            match (pieceToMove w).1 with
            | Some _ =>
                let uci := str_opt id (pieceToMove w).2 +:+ coordinates in
                mousePressEvent_move uci ;;
                ret (None, None)
            | None =>
                move <- lift (from_uci (coordinates +:+ coordinates)) ;;
                modify (set_lastMove (Some move)) ;;
                ret (piece, Some coordinates)
            end ;;
          modify (set_pieceToMove sel) ;;
          logging INFO ("Selected: " +:+ str_opt str_piece sel.1)
      | OnMargin => logging INFO "coordinates clicked"
      | _ => ret tt
      end
  end.

(** The attributes set by [MainWindow.__init__] before it calls
    [connectNetwork]; [ip] is the [--ip] option, absent on the host, and
    [rnd] the number drawn for a Chess960 game.  There is no connection
    yet. *)
Definition new_window (c960 : bool) (ip : option string) (rnd : nat) : MainWindow :=
  {| is960 := c960;
     chessboard := if c960 then from_chess960_pos rnd else starting_board;
     pieceToMove := (None, None);
     flipped := truthy ip;
     isMyMove := negb (truthy ip);
     lastMove := None;
     check := None;
     lastReceived := None;
     popup := None;
     updates := 0;
     sent := [];
     log := [];
     appSocket := Broken |}.

(** [MainWindow.connectNetwork], from the point where [accept] or [connect]
    has returned and [appSocket] is connected: the host sends the FEN of its
    board, the client builds its board from the bytes [received] by its
    first [recv(1024)]. Starting the reader thread is left to the caller. *)
Definition connectNetwork (ip : option string) (received : string) : M unit :=
  if negb (truthy ip) then
    modify (set_appSocket Connected) ;;
    w <- get ;;
    let fen := fen (chessboard w) in
    logging CRITICAL ("FEN " +:+ fen) ;;
    appSocket_send fen
  else
    modify (set_appSocket Connected) ;;
    let fen := received in
    logging CRITICAL ("FEN " +:+ fen) ;;
    w <- get ;;
    b <- lift (board_of_fen fen (is960 w)) ;;
    modify (set_chessboard b).

(** [MainWindow.__init__]. *)
Definition MainWindow_init (c960 : bool) (ip : option string) (rnd : nat)
    (received : string) : outcome unit :=
  connectNetwork ip received (new_window c960 ip rnd).

(** *** The states the properties speak of *)

(** The window after [_updateMoveOnboard move], attribute by attribute. *)
Definition moved (move : Move) (w : MainWindow) : MainWindow :=
  let b := push (chessboard w) move in
  {| is960 := is960 w;
     chessboard := b;
     pieceToMove := pieceToMove w;
     flipped := flipped w;
     isMyMove := isMyMove w;
     lastMove := Some move;
     check := if is_check b then king b (turn b) else None;
     lastReceived := lastReceived w;
     popup := if is_checkmate b
              then Some (if turn b then "Checkmate! Black wins!" else "Checkmate! White wins!")
              else popup w;
     updates := S (updates w);
     sent := sent w;
     log := if is_checkmate b then log w ++ [(INFO, "Checkmate")] else log w;
     appSocket := appSocket w |}.

(** The window once the reader has stored and logged the bytes it read. *)
Definition received (data : string) (w : MainWindow) : MainWindow :=
  set_log (log w ++ [(INFO, "RECEIVED " +:+ data)]) (set_lastReceived (Some data) w).

(** The window once the mouse handler has logged the token it built. *)
Definition got_event (uci : string) (w : MainWindow) : MainWindow :=
  set_log (log w ++ [(INFO, "Got event " +:+ uci)]) w.

(** The window once the connection behind [appSocket] was lost: the peer
    went away or the network did, between two events of the program. *)
Definition connection_lost (w : MainWindow) : MainWindow :=
  set_appSocket Broken w.

(** The window once [performMove] has logged that a move is not legal. *)
Definition refused (w : MainWindow) : MainWindow :=
  set_log (log w ++ [(ERROR, "Move not legal")]) w.

(** The four ways a call of [performMove] on the window [w] can end: the
    token or its queen-suffixed variant does not decode; a legal move is
    played; both moves are illegal and the last received bytes do not decode;
    both are illegal and the last received move becomes the last move. *)
Inductive performMove_ends (w : MainWindow) : outcome bool -> Prop :=
| ends_undecoded (e : exn) :
    performMove_ends w (Raised e w)
| ends_played (m : Move) :
    is_legal (chessboard w) m = true ->
    performMove_ends w (Returned true (moved m w))
| ends_refused_raising (e : exn) :
    from_uci_obj (lastReceived w) = Err e ->
    performMove_ends w (Raised e (refused w))
| ends_refused (last : Move) :
    from_uci_obj (lastReceived w) = Ok last ->
    performMove_ends w (Returned false (set_lastMove (Some last) (refused w))).

(** A run of mouse presses: Qt reports an exception escaping a handler and
    goes on with the next event, so each press starts from the attributes the
    previous one left. *)
Definition after_clicks (events : list MouseEvent) (w : MainWindow) : MainWindow :=
  fold_left (fun w ev => state_of (mousePressEvent ev w)) events w.

(** Did the call return. *)
Definition returns {A} (o : outcome A) : bool :=
  match o with Returned _ _ => true | Raised _ _ => false end.

(** The first message a host put on the wire. *)
Definition first_message (host : MainWindow) : string :=
  default "" (head (sent host)).

(** The states of the turn state machine of the specification.  The program
    keeps the state in the one flag [isMyMove]. *)
Inductive TurnState : Set := AwaitingLocalMove | AwaitingRemoteMove | GameOver.

Definition turn_state (w : MainWindow) : TurnState :=
  if isMyMove w then AwaitingLocalMove else AwaitingRemoteMove.

(** The text of the checkmate notification for a winner. *)
Definition Checkmate (winner : Color) : string :=
  if winner then "Checkmate! White wins!" else "Checkmate! Black wins!".

End Window.

Arguments Returned {Board A} a w.
Arguments Raised {Board A} e w.

(** ** A rules engine for standard chess *)

(** Modelled from the spec: the external Rules Engine (sections 1, 2 and 6:
    board state, legality, check and checkmate detection, FEN) is the
    [chess] library, which is not part of the repository.  [PyChess] is a
    model of it for the rules of chess: piece placement as the 64 squares
    from a1 to h8, castling rights as the set of rooks that may still
    castle, and the library's conventions for castling moves, FEN output and
    Chess960 starting positions. *)
Module PyChess.

Local Open Scope nat_scope.

Record board : Type := mkBoard {
  pieces : list (option Piece);
  b_turn : Color;
  castling_rights : list Square;
  ep_square : option Square;
  halfmove_clock : nat;
  fullmove_number : nat;
  chess960 : bool
}.

Definition SQUARES : list Square := seq 0 64.

Definition square_file (sq : Square) : nat := sq mod 8.
Definition square_rank (sq : Square) : nat := sq / 8.

Definition A1 : Square := 0.
Definition C1 : Square := 2.
Definition D1 : Square := 3.
Definition E1 : Square := 4.
Definition F1 : Square := 5.
Definition G1 : Square := 6.
Definition H1 : Square := 7.
Definition A8 : Square := 56.
Definition C8 : Square := 58.
Definition D8 : Square := 59.
Definition E8 : Square := 60.
Definition F8 : Square := 61.
Definition G8 : Square := 62.
Definition H8 : Square := 63.

Definition at_sq (ps : list (option Piece)) (sq : Square) : option Piece :=
  mjoin (ps !! sq).

Definition piece_at (b : board) (sq : Square) : option Piece := at_sq (pieces b) sq.

Definition piece_type_at (b : board) (sq : Square) : option PieceType :=
  piece_type <$> piece_at b sq.

Definition is_piece (ps : list (option Piece)) (t : PieceType) (c : Color) (sq : Square) : bool :=
  bool_decide (at_sq ps sq = Some (mkPiece t c)).

Definition has_color (ps : list (option Piece)) (c : Color) (sq : Square) : bool :=
  match at_sq ps sq with
  | Some p => eqb (color p) c
  | None => false
  end.

(** The occupancy a ray is tested against: the library passes it separately
    from the piece sets, and toggles squares in it with [^]. *)
Definition occupancy := Square -> bool.

Definition occupied (ps : list (option Piece)) : occupancy :=
  fun sq => bool_decide (is_Some (at_sq ps sq)).

Definition toggle (sq : Square) (occ : occupancy) : occupancy :=
  fun s => xorb (occ s) (Nat.eqb s sq).

Definition sgn_step (a b : nat) : Z := Z.sgn (Z.of_nat b - Z.of_nat a).

(** The squares strictly between two squares on a common rank, file or
    diagonal ([BB_BETWEEN]); none when they are not aligned. *)
Definition between (s t : Square) : list Square :=
  let df := Z.abs (Z.of_nat (square_file t) - Z.of_nat (square_file s)) in
  let dr := Z.abs (Z.of_nat (square_rank t) - Z.of_nat (square_rank s)) in
  if (df =? 0)%Z && (dr =? 0)%Z then []
  else if (df =? 0)%Z || (dr =? 0)%Z || (df =? dr)%Z then
    let step := (sgn_step (square_rank s) (square_rank t) * 8
                 + sgn_step (square_file s) (square_file t))%Z in
    map (fun k => Z.to_nat (Z.of_nat s + Z.of_nat k * step))
        (seq 1 (Z.to_nat (Z.max df dr) - 1))
  else [].

Definition aligned_diag (s t : Square) : bool :=
  let df := Z.abs (Z.of_nat (square_file t) - Z.of_nat (square_file s)) in
  let dr := Z.abs (Z.of_nat (square_rank t) - Z.of_nat (square_rank s)) in
  (df =? dr)%Z && negb (df =? 0)%Z.

Definition aligned_line (s t : Square) : bool :=
  let df := Z.abs (Z.of_nat (square_file t) - Z.of_nat (square_file s)) in
  let dr := Z.abs (Z.of_nat (square_rank t) - Z.of_nat (square_rank s)) in
  xorb (df =? 0)%Z (dr =? 0)%Z.

Definition path_clear (occ : occupancy) (s t : Square) : bool :=
  forallb (fun x => negb (occ x)) (between s t).

(** Does a piece [p] standing on [s] attack [t], with rays stopped by
    [occ]? *)
Definition piece_attacks (p : Piece) (occ : occupancy) (s t : Square) : bool :=
  let df := Z.abs (Z.of_nat (square_file t) - Z.of_nat (square_file s)) in
  let dr := (Z.of_nat (square_rank t) - Z.of_nat (square_rank s))%Z in
  match piece_type p with
  | PAWN => (df =? 1)%Z && (dr =? (if color p then 1 else -1))%Z
  | KNIGHT => ((df =? 1)%Z && (Z.abs dr =? 2)%Z) || ((df =? 2)%Z && (Z.abs dr =? 1)%Z)
  | KING => (Z.max df (Z.abs dr) =? 1)%Z
  | BISHOP => aligned_diag s t && path_clear occ s t
  | ROOK => aligned_line s t && path_clear occ s t
  | QUEEN => (aligned_diag s t || aligned_line s t) && path_clear occ s t
  end.

(** [attacks_mask]: the squares attacked from [s], as a test on [t]. *)
Definition attacks (ps : list (option Piece)) (s t : Square) : bool :=
  match at_sq ps s with
  | Some p => piece_attacks p (occupied ps) s t
  | None => false
  end.

(** [_attackers_mask(color, square, occupied)]. *)
Definition attackers (ps : list (option Piece)) (occ : occupancy) (c : Color)
    (sq : Square) : list Square :=
  List.filter (fun s => match at_sq ps s with
                        | Some p => eqb (color p) c && piece_attacks p occ s sq
                        | None => false
                        end) SQUARES.

Definition is_attacked_by (b : board) (c : Color) (sq : Square) : bool :=
  bool_decide (attackers (pieces b) (occupied (pieces b)) c sq <> []).

(** [king(color)]: the square of the king of that colour, the highest one
    should there be several, [None] without one. *)
Definition king (b : board) (c : Color) : option Square :=
  last (List.filter (is_piece (pieces b) KING c) SQUARES).

Definition is_check (b : board) : bool :=
  match king b (b_turn b) with
  | Some k => is_attacked_by b (negb (b_turn b)) k
  | None => false
  end.

Definition backrank (c : Color) : nat := if c then 0 else 7.

Definition on_backrank (c : Color) (sq : Square) : bool :=
  Nat.eqb (square_rank sq) (backrank c).

Definition mem (sq : Square) (l : list Square) : bool :=
  existsb (Nat.eqb sq) l.

(** [clean_castling_rights] for one colour: the rooks of that colour on its
    back rank that are recorded in [castling_rights] and can still castle
    with the king where it stands, in ascending order. *)
Definition clean_castling_rights_co (b : board) (c : Color) : list Square :=
  let castling :=
    List.filter (fun sq => mem sq (castling_rights b)
                           && is_piece (pieces b) ROOK c sq
                           && on_backrank c sq) SQUARES in
  if chess960 b then
    match last (List.filter (fun sq => is_piece (pieces b) KING c sq
                                       && on_backrank c sq) SQUARES) with
    | None => []
    | Some k =>
        let a_side := match head castling with
                      | Some r => if k <? r then [] else [r]
                      | None => []
                      end in
        let h_side := match last castling with
                      | Some r => if r <? k then [] else [r]
                      | None => []
                      end in
        List.filter (fun sq => mem sq a_side || mem sq h_side) SQUARES
    end
  else
    if is_piece (pieces b) KING c (if c then E1 else E8)
    then List.filter (fun sq => mem sq (if c then [A1; H1] else [A8; H8])) castling
    else [].

Definition clean_castling_rights (b : board) : list Square :=
  clean_castling_rights_co b WHITE ++ clean_castling_rights_co b BLACK.

(** [_attacked_for_king(path, occupied)]. *)
Definition _attacked_for_king (b : board) (path : list Square) (occ : occupancy) : bool :=
  existsb (fun sq => bool_decide (attackers (pieces b) occ (negb (b_turn b)) sq <> [])) path.

Definition any_king_on (b : board) (sq : Square) : bool :=
  is_piece (pieces b) KING WHITE sq || is_piece (pieces b) KING BLACK sq.

Definition any_rook_on (b : board) (sq : Square) : bool :=
  is_piece (pieces b) ROOK WHITE sq || is_piece (pieces b) ROOK BLACK sq.

(** [_from_chess960]: outside Chess960 a castling move is written as the
    king's two-square step. *)
Definition _from_chess960 (b : board) (f t : Square) : Move :=
  if negb (chess960 b) then
    if Nat.eqb f E1 && any_king_on b E1 then
      if Nat.eqb t H1 then mkMove E1 G1 None
      else if Nat.eqb t A1 then mkMove E1 C1 None
      else mkMove f t None
    else if Nat.eqb f E8 && any_king_on b E8 then
      if Nat.eqb t H8 then mkMove E8 G8 None
      else if Nat.eqb t A8 then mkMove E8 C8 None
      else mkMove f t None
    else mkMove f t None
  else mkMove f t None.

(** [_to_chess960]: the inverse reading, king takes own rook. *)
Definition _to_chess960 (b : board) (m : Move) : Move :=
  if Nat.eqb (from_square m) E1 && any_king_on b E1 then
    if Nat.eqb (to_square m) G1 && negb (any_rook_on b G1) then mkMove E1 H1 None
    else if Nat.eqb (to_square m) C1 && negb (any_rook_on b C1) then mkMove E1 A1 None
    else m
  else if Nat.eqb (from_square m) E8 && any_king_on b E8 then
    if Nat.eqb (to_square m) G8 && negb (any_rook_on b G8) then mkMove E8 H8 None
    else if Nat.eqb (to_square m) C8 && negb (any_rook_on b C8) then mkMove E8 A8 None
    else m
  else m.

(** [generate_castling_moves]. *)
Definition generate_castling_moves (b : board) : list Move :=
  let c := b_turn b in
  let occ := occupied (pieces b) in
  match head (List.filter (fun sq => is_piece (pieces b) KING c sq
                                     && on_backrank c sq) SQUARES) with
  | None => []
  | Some k =>
      if _attacked_for_king b [k] occ then []
      else
        flat_map
          (fun rook =>
             let a_side := rook <? k in
             let king_to := backrank c * 8 + (if a_side then 2 else 6) in
             let rook_to := backrank c * 8 + (if a_side then 3 else 5) in
             let king_path := between k king_to in
             let rook_path := between rook rook_to in
             if existsb (toggle rook (toggle k occ))
                        (king_path ++ rook_path ++ [king_to; rook_to])
                || _attacked_for_king b (king_path ++ [k]) (toggle k occ)
                || _attacked_for_king b [king_to]
                     (toggle rook_to (toggle rook (toggle k occ)))
             then []
             else [_from_chess960 b k rook])
          (rev (clean_castling_rights_co b c))
  end.

Definition PROMOTIONS : list PieceType := [QUEEN; ROOK; BISHOP; KNIGHT].

(** Is [promo] what a pawn move to [t] carries: one of the four pieces on
    the first or last rank, nothing elsewhere. *)
Definition promotion_fits (t : Square) (promo : option PieceType) : bool :=
  if Nat.eqb (square_rank t) 0 || Nat.eqb (square_rank t) 7
  then match promo with
       | Some p => bool_decide (p ∈ PROMOTIONS)
       | None => false
       end
  else bool_decide (promo = None).

(** Membership of a move in [generate_pseudo_legal_ep]: a pawn of the side
    to move on its fifth rank takes on the vacant en passant square. *)
Definition ep_move (b : board) (m : Move) : bool :=
  let c := b_turn b in
  let f := from_square m in
  let occ := occupied (pieces b) in
  match ep_square b with
  | Some e =>
      negb (Nat.eqb e 0) && Nat.eqb (to_square m) e && negb (occ e)
      && is_piece (pieces b) PAWN c f
      && piece_attacks (mkPiece PAWN c) occ f e
      && Nat.eqb (square_rank f) (if c then 4 else 3)
      && bool_decide (promotion m = None)
  | None => false
  end.

(** Membership of a move in the pawn part of
    [generate_pseudo_legal_moves]: captures, single and double advances
    and the capture en passant. *)
Definition pawn_move (b : board) (m : Move) : bool :=
  let c := b_turn b in
  let f := from_square m in
  let t := to_square m in
  let occ := occupied (pieces b) in
  let fwd (n : nat) := if c then f + 8 * n else f - 8 * n in
  let can_fwd (n : nat) := if c then f + 8 * n <? 64 else 8 * n <=? f in
  let capture :=
    piece_attacks (mkPiece PAWN c) occ f t && has_color (pieces b) (negb c) t
    && promotion_fits t (promotion m) in
  let single :=
    can_fwd 1 && Nat.eqb t (fwd 1) && negb (occ t) && promotion_fits t (promotion m) in
  let double :=
    can_fwd 2 && Nat.eqb t (fwd 2) && negb (occ (fwd 1)) && negb (occ t)
    && (if c then square_rank t <=? 3 else 4 <=? square_rank t)
    && (if c then 2 <=? square_rank t else square_rank t <=? 5)
    && bool_decide (promotion m = None) in
  is_piece (pieces b) PAWN c f && (capture || single || double || ep_move b m).

(** [is_pseudo_legal]. *)
Definition is_pseudo_legal (b : board) (m : Move) : bool :=
  if bool_decide (m = null_move) then false
  else
    match piece_at b (from_square m) with
    | None => false
    | Some p =>
        if negb (eqb (color p) (b_turn b)) then false
        else if match promotion m with
                | Some _ =>
                    negb (bool_decide (piece_type p = PAWN))
                    || negb (Nat.eqb (square_rank (to_square m)) (if b_turn b then 7 else 0))
                | None => false
                end then false
        else if (if bool_decide (piece_type p = KING)
                 then bool_decide (m ∈ generate_castling_moves b)
                 else false) then true
        else if has_color (pieces b) (b_turn b) (to_square m) then false
        else if bool_decide (piece_type p = PAWN) then pawn_move b m
        else attacks (pieces b) (from_square m) (to_square m)
    end.

(** [is_zeroing]: a pawn move or a capture resets the half-move clock. *)
Definition is_zeroing (b : board) (m : Move) : bool :=
  bool_decide (piece_type_at b (from_square m) = Some PAWN)
  || has_color (pieces b) (negb (b_turn b)) (to_square m).

Definition with_pieces (ps : list (option Piece)) (b : board) : board :=
  mkBoard ps (b_turn b) (castling_rights b) (ep_square b)
          (halfmove_clock b) (fullmove_number b) (chess960 b).

(** [push]: play a move, legal or not, and pass the turn. *)
Definition push (b0 : board) (m0 : Move) : board :=
  let m := _to_chess960 b0 m0 in
  let c := b_turn b0 in
  let old_ep := ep_square b0 in
  let fullmove := if c then fullmove_number b0 else S (fullmove_number b0) in
  if bool_decide (m = null_move) then
    mkBoard (pieces b0) (negb c) (castling_rights b0) None
            (S (halfmove_clock b0)) fullmove (chess960 b0)
  else
    let halfmove := if is_zeroing b0 m then 0 else S (halfmove_clock b0) in
    let f := from_square m in
    let t := to_square m in
    let moved := piece_type_at b0 f in
    let ps1 := <[f := None]> (pieces b0) in
    let captured := piece_type <$> at_sq ps1 t in
    let rights0 :=
      List.filter (fun sq => negb (Nat.eqb sq t) && negb (Nat.eqb sq f))
                  (clean_castling_rights (with_pieces ps1 b0)) in
    let rights :=
      if bool_decide (moved = Some KING) then
        List.filter (fun sq => negb (on_backrank c sq)) rights0
      else if bool_decide (captured = Some KING) then
        if c && Nat.eqb (square_rank t) 7
        then List.filter (fun sq => negb (on_backrank BLACK sq)) rights0
        else if negb c && Nat.eqb (square_rank t) 0
        then List.filter (fun sq => negb (on_backrank WHITE sq)) rights0
        else rights0
      else rights0 in
    let is_pawn := bool_decide (moved = Some PAWN) in
    let new_ep :=
      if is_pawn && Nat.eqb t (f + 16) && Nat.eqb (square_rank f) 1 then Some (f + 8)
      else if is_pawn && Nat.eqb (t + 16) f && Nat.eqb (square_rank f) 6 then Some (f - 8)
      else None in
    let takes_ep :=
      is_pawn && negb (bool_decide (is_Some new_ep))
      && bool_decide (old_ep = Some t)
      && (Nat.eqb t (f + 7) || Nat.eqb t (f + 9) || Nat.eqb (t + 7) f || Nat.eqb (t + 9) f)
      && negb (bool_decide (is_Some captured)) in
    let ps2 := if takes_ep then <[(if c then t - 8 else t + 8) := None]> ps1 else ps1 in
    let placed := match promotion m with Some p => Some p | None => moved end in
    let castling := bool_decide (placed = Some KING) && has_color ps2 c t in
    let ps3 :=
      if castling then
        let a_side := square_file t <? square_file f in
        let ps := <[t := None]> (<[f := None]> ps2) in
        if a_side
        then <[(if c then D1 else D8) := Some (mkPiece ROOK c)]>
               (<[(if c then C1 else C8) := Some (mkPiece KING c)]> ps)
        else <[(if c then F1 else F8) := Some (mkPiece ROOK c)]>
               (<[(if c then G1 else G8) := Some (mkPiece KING c)]> ps)
      else
        match placed with
        | Some p => <[t := Some (mkPiece p c)]> ps2
        | None => ps2
        end in
    mkBoard ps3 (negb c) rights new_ep halfmove fullmove (chess960 b0).

(** [is_into_check]: would the move leave the mover's king attacked. *)
Definition is_into_check (b : board) (m : Move) : bool :=
  let b' := push b m in
  match king b' (b_turn b) with
  | Some k => is_attacked_by b' (negb (b_turn b)) k
  | None => false
  end.

(** [is_legal]. *)
Definition is_legal (b : board) (m : Move) : bool :=
  if is_pseudo_legal b m then negb (is_into_check b m) else false.

(** Every move a piece on [f] could make: to any square, with or without
    one of the four promotion pieces. *)
Definition candidate_moves (f : Square) : list Move :=
  flat_map (fun t => map (mkMove f t) (None :: map Some PROMOTIONS)) SQUARES.

(** [generate_legal_moves], as a list: the legal moves of each piece of the
    side to move. *)
Definition legal_moves (b : board) : list Move :=
  flat_map (fun f => List.filter (is_legal b) (candidate_moves f))
           (List.filter (has_color (pieces b) (b_turn b)) SQUARES).

(** [is_checkmate]: in check and without a legal move. *)
Definition is_checkmate (b : board) : bool :=
  if is_check b then bool_decide (legal_moves b = []) else false.

(** *** FEN output *)

Fixpoint fen_row (row : list (option Piece)) (empty : nat) : string :=
  match row with
  | [] => if Nat.eqb empty 0 then "" else str_nat empty
  | None :: row' => fen_row row' (S empty)
  | Some p :: row' =>
      (if Nat.eqb empty 0 then "" else str_nat empty) +:+ str_piece p +:+ fen_row row' 0
  end.

Fixpoint join (sep : string) (l : list string) : string :=
  match l with
  | [] => ""
  | [x] => x
  | x :: l' => x +:+ sep +:+ join sep l'
  end.

(** [board_fen]: the ranks from the eighth down to the first. *)
Definition board_fen (b : board) : string :=
  join "/" (map (fun r => fen_row (take 8 (drop (8 * r) (pieces b))) 0)
                (rev (seq 0 8))).

Definition upper (s : string) : string :=
  match s with
  | String c _ => String (ascii_of_nat (nat_of_ascii c - 32)) EmptyString
  | EmptyString => EmptyString
  end.

(** [castling_xfen] for one colour: K or Q (k or q) for the outermost rook
    on its side of the king, the file letter of the rook otherwise. *)
Definition castling_xfen_co (b : board) (c : Color) : string :=
  match king b c with
  | None => ""
  | Some k =>
      let rooks := List.filter (fun sq => is_piece (pieces b) ROOK c sq
                                          && on_backrank c sq) SQUARES in
      join ""
        (map (fun rook =>
                let a_side := square_file rook <? square_file k in
                let outer :=
                  existsb (fun other =>
                             negb (Nat.eqb other rook)
                             && eqb (square_file other <? square_file rook) a_side)
                          rooks in
                let ch := if outer then default "" (FILE_NAMES !! square_file rook)
                          else if a_side then "q" else "k" in
                if c then upper ch else ch)
             (rev (clean_castling_rights_co b c)))
  end.

Definition castling_xfen (b : board) : string :=
  let s := castling_xfen_co b WHITE +:+ castling_xfen_co b BLACK in
  if decide (s = "") then "-" else s.

(** [has_legal_en_passant]. *)
Definition has_legal_en_passant (b : board) : bool :=
  match ep_square b with
  | Some e => existsb (fun f => if ep_move b (mkMove f e None)
                                then negb (is_into_check b (mkMove f e None))
                                else false) SQUARES
  | None => false
  end.

(** [fen(shredder=False)]: placement, side to move, castling, the en
    passant square when the capture is legal, and the two move counters. *)
Definition fen (b : board) : string :=
  join " " [ board_fen b;
             if b_turn b then "w" else "b";
             castling_xfen b;
             match ep_square b with
             | Some e => if has_legal_en_passant b then square_name e else "-"
             | None => "-"
             end;
             str_nat (halfmove_clock b);
             str_nat (fullmove_number b) ].

(** *** FEN input *)

Definition is_space (c : ascii) : bool :=
  let n := nat_of_ascii c in
  Nat.eqb n 32 || ((9 <=? n) && (n <=? 13)).

(** [str.split()]: the maximal runs of characters that are not white space. *)
Fixpoint split_ws (s : string) (cur : string) : list string :=
  match s with
  | EmptyString => if decide (cur = "") then [] else [cur]
  | String c s' =>
      if is_space c
      then ((if decide (cur = "") then [] else [cur]) ++ split_ws s' "")%list
      else split_ws s' (cur +:+ String c EmptyString)
  end.

(** [str.split(sep)] on a one-character separator. *)
Fixpoint split_on (sep : ascii) (s : string) (cur : string) : list string :=
  match s with
  | EmptyString => [cur]
  | String c s' =>
      if Ascii.eqb c sep then cur :: split_on sep s' ""
      else split_on sep s' (cur +:+ String c EmptyString)
  end.

Definition digit_of (c : ascii) : option nat :=
  let n := nat_of_ascii c in
  if (48 <=? n) && (n <=? 57) then Some (n - 48) else None.

(** [int(s)] on a run of decimal digits; anything else is a [ValueError]. *)
Fixpoint int_of_digits (s : string) (acc : nat) : option nat :=
  match s with
  | EmptyString => Some acc
  | String c s' =>
      match digit_of c with
      | Some d => int_of_digits s' (10 * acc + d)
      | None => None
      end
  end.

Definition int_of (s : string) : result nat :=
  if decide (s = "") then Err ValueError
  else match int_of_digits s 0 with
       | Some n => Ok n
       | None => Err ValueError
       end.

Definition piece_of_char (c : ascii) : option Piece :=
  let n := nat_of_ascii c in
  let is_upper := (65 <=? n) && (n <=? 90) in
  let lower := String (ascii_of_nat (if is_upper then n + 32 else n)) EmptyString in
  match piece_of_symbol lower with
  | Ok t => Some (mkPiece t is_upper)
  | Err _ => None
  end.

(** One rank of the placement field: digits 1 to 8 (never two in a row) and
    piece letters, eight squares in all. *)
Fixpoint parse_row (row : string) (previous_was_digit : bool) : option (list (option Piece)) :=
  match row with
  | EmptyString => Some []
  | String c row' =>
      match digit_of c with
      | Some d =>
          if (1 <=? d) && (d <=? 8) && negb previous_was_digit
          then (fun l => (replicate d None ++ l)%list) <$> parse_row row' true
          else None
      | None =>
          match piece_of_char c with
          | Some p => (fun l => Some p :: l) <$> parse_row row' false
          | None => None
          end
      end
  end.

Fixpoint parse_rows (rows : list string) : option (list (list (option Piece))) :=
  match rows with
  | [] => Some []
  | r :: rows' =>
      match parse_row r false with
      | Some l => if Nat.eqb (length l) 8 then (fun ls => l :: ls) <$> parse_rows rows' else None
      | None => None
      end
  end.

(** [_set_board_fen]: the ranks come eighth first.  The [~] that marks a
    promoted piece in Crazyhouse is not read. *)
Definition parse_board_fen (s : string) : result (list (option Piece)) :=
  let rows := split_on "/" s "" in
  if Nat.eqb (length rows) 8 then
    match parse_rows rows with
    | Some ls => Ok (concat (rev ls))
    | None => Err ValueError
    end
  else Err ValueError.

Definition chars (s : string) : list ascii := list_ascii_of_string s.

(** [FEN_CASTLING_REGEX]: a dash, or at most two of [KQA-H] followed by at
    most two of [kqa-h]. *)
Definition castling_flag_ok (white : bool) (c : ascii) : bool :=
  let n := nat_of_ascii c in
  let l := if white then n + 32 else n in
  (if white then (65 <=? n) && (n <=? 90) else true)
  && (Nat.eqb l 107 || Nat.eqb l 113 || ((97 <=? l) && (l <=? 104))).

Definition castling_fen_ok (s : string) : bool :=
  if decide (s = "-") then true
  else
    let cs := chars s in
    let ups := List.filter (fun c => (65 <=? nat_of_ascii c) && (nat_of_ascii c <=? 90)) cs in
    let n := length ups in
    (n <=? 2)
    && forallb (castling_flag_ok true) (take n cs)
    && (length (drop n cs) <=? 2)
    && forallb (castling_flag_ok false) (drop n cs).

(** [_set_castling_fen]: the rook each flag stands for. *)
Definition castling_flag (b : board) (c : ascii) : list Square :=
  let n := nat_of_ascii c in
  let co : Color := (65 <=? n) && (n <=? 90) in
  let flag := if co then n + 32 else n in
  let rooks := List.filter (fun sq => is_piece (pieces b) ROOK co sq
                                      && on_backrank co sq) SQUARES in
  if Nat.eqb flag 113 then
    match king b co, head rooks with
    | Some k, Some r => if r <? k then [r] else [backrank co * 8]
    | Some k, None => []
    | None, _ => [backrank co * 8]
    end
  else if Nat.eqb flag 107 then
    match king b co, last rooks with
    | Some k, Some r => if k <? r then [r] else [backrank co * 8 + 7]
    | _, _ => [backrank co * 8 + 7]
    end
  else [backrank co * 8 + (flag - 97)].

Definition set_castling_fen (b : board) (s : string) : list Square :=
  if decide (s = "-") then []
  else
    let rights := flat_map (castling_flag b) (chars s) in
    List.filter (fun sq => mem sq rights) SQUARES.

(** [chess.Board(fen=..., chess960=...)], that is [set_fen]: six fields
    separated by white space. *)
Definition board_of_fen (s : string) (c960 : bool) : result board :=
  match split_ws s "" with
  | [placement; side; castling; ep; halfmove; fullmove] =>
      if negb (bool_decide (side = "w") || bool_decide (side = "b")) then Err ValueError
      else if negb (castling_fen_ok castling) then Err ValueError
      else
        let white := bool_decide (side = "w") in
        match (if decide (ep = "-") then Ok None
               else match square_of_name ep with
                    | Ok e => if Nat.eqb (square_rank e) (if white then 5 else 2)
                              then Ok (Some e) else Err ValueError
                    | Err x => Err x
                    end) with
        | Err x => Err x
        | Ok ep_sq =>
            match int_of halfmove, int_of fullmove, parse_board_fen placement with
            | Ok h, Ok f, Ok ps =>
                let b := mkBoard ps white [] ep_sq h (if Nat.eqb f 0 then 1 else f) c960 in
                Ok (mkBoard ps white (set_castling_fen b castling) ep_sq h
                            (if Nat.eqb f 0 then 1 else f) c960)
            | _, _, _ => Err ValueError
            end
        end
  | _ => Err ValueError
  end.

Definition STARTING_FEN : string :=
  "rnbqkbnr/pppppppp/8/8/8/8/PPPPPPPP/RNBQKBNR w KQkq - 0 1".

(** [chess.Board()]: the standard starting position. *)
Definition starting_board : board :=
  match board_of_fen STARTING_FEN false with
  | Ok b => b
  | Err _ => mkBoard (replicate 64 None) WHITE [] None 0 1 false
  end.

(** *** Chess960 starting positions *)

(** The two of the five free files that take the knights, for the part [n]
    (0 to 9) of the position number: the first [n1] in 0..3 with
    [n1 < n2 <= 4] where [n2 = n + (3 - n1) * (4 - n1) / 2 - 5]. *)
Definition knight_slots (n : nat) : Z * Z :=
  let n2 (n1 : Z) := (Z.of_nat n + (3 - n1) * (4 - n1) / 2 - 5)%Z in
  let ok (n1 : Z) := (n1 <? n2 n1)%Z && (1 <=? n2 n1)%Z && (n2 n1 <=? 4)%Z in
  if ok 0%Z then (0, n2 0)%Z
  else if ok 1%Z then (1, n2 1)%Z
  else if ok 2%Z then (2, n2 2)%Z
  else (3, n2 3)%Z.

(** The files of the back rank pieces of position [sharnagl]
    ([set_chess960_pos]): bishops on opposite colours, the queen, the
    knights, then rook, king and rook on what is left. *)
Definition chess960_backrank (sharnagl : nat) : list PieceType :=
  let bw := sharnagl mod 4 in
  let n := sharnagl / 4 in
  let bb := n mod 4 in
  let n := n / 4 in
  let q := n mod 6 in
  let n := n / 6 in
  let '(n1, n2) := knight_slots n in
  let bw_file := bw * 2 + 1 in
  let bb_file := bb * 2 in
  let q_file := q in
  let q_file := q_file + (if Nat.min bw_file bb_file <=? q_file then 1 else 0) in
  let q_file := q_file + (if Nat.max bw_file bb_file <=? q_file then 1 else 0) in
  let used := [bw_file; bb_file; q_file] in
  let free := List.filter (fun i => negb (mem i used)) (seq 0 8) in
  let knights :=
    omap (fun '(j, i) => if (Z.of_nat j =? n1)%Z || (Z.of_nat j =? n2)%Z then Some i else None)
         (imap pair free) in
  let rest := List.filter (fun i => negb (mem i knights)) free in
  map (fun i =>
         if mem i [bw_file; bb_file] then BISHOP
         else if Nat.eqb i q_file then QUEEN
         else if mem i knights then KNIGHT
         else if bool_decide (rest !! 1 = Some i) then KING
         else ROOK)
      (seq 0 8).

(** [chess.Board.from_chess960_pos(sharnagl)]. *)
Definition from_chess960_pos (sharnagl : nat) : board :=
  let back := chess960_backrank sharnagl in
  let ps :=
    (map (fun t => Some (mkPiece t WHITE)) back
     ++ replicate 8 (Some (mkPiece PAWN WHITE))
     ++ replicate 32 None
     ++ replicate 8 (Some (mkPiece PAWN BLACK))
     ++ map (fun t => Some (mkPiece t BLACK)) back)%list in
  mkBoard ps WHITE
          (List.filter (fun sq => is_piece ps ROOK WHITE sq || is_piece ps ROOK BLACK sq) SQUARES)
          None 0 1 true.

End PyChess.

(** The model as an implementation of the interface. *)
#[global] Instance pychess : RulesEngine PyChess.board := {|
  starting_board := PyChess.starting_board;
  from_chess960_pos := PyChess.from_chess960_pos;
  board_of_fen := PyChess.board_of_fen;
  fen := PyChess.fen;
  is_legal := PyChess.is_legal;
  push := PyChess.push;
  is_check := PyChess.is_check;
  is_checkmate := PyChess.is_checkmate;
  king := PyChess.king;
  turn := PyChess.b_turn;
  piece_at := PyChess.piece_at
|}.

(** ** Sessions on the standard rules engine *)

(** The host after [MainWindow()] for a standard game. *)
Definition host0 : MainWindow :=
  state_of (MainWindow_init false None 0 "").

(** The client after [MainWindow(ip=...)] when it received the host's FEN. *)
Definition client0 : MainWindow :=
  state_of (MainWindow_init false (Some "10.0.0.1") 0 PyChess.STARTING_FEN).

(** A position with a white pawn on e7, white to move. *)
Definition pawn_e7 : PyChess.board :=
  match PyChess.board_of_fen "8/4P3/8/8/8/8/k7/7K w - - 0 1" false with
  | Ok b => b
  | Err _ => PyChess.starting_board
  end.

Definition E8 : Square := 60.

(** The window of the position with the white pawn on e7. *)
Definition window_e7 : MainWindow := set_chessboard pawn_e7 host0.

(** Fool's mate as the host lives it: f2 and f3 pressed, ["e7e5"] received,
    g2 and g4 pressed, ["d8h4"] received. *)
Definition fools_mate_before_mate : MainWindow :=
  after_clicks [OnSquare 6 6; OnSquare 6 4]
    (state_of (_socketReader_step "e7e5"
       (after_clicks [OnSquare 5 6; OnSquare 5 5] host0))).

Definition fools_mate : MainWindow :=
  state_of (_socketReader_step "d8h4" fools_mate_before_mate).

(** The host of a game, standard or Chess960 with the drawn number [rnd]. *)
Definition host_of (c960 : bool) (rnd : nat) : MainWindow :=
  state_of (MainWindow_init c960 None rnd "").

(** The client started with its own [--c960] setting against that host. *)
Definition client_of (host : @MainWindow PyChess.board) (c960 : bool) (ip : string)
    : outcome unit :=
  MainWindow_init c960 (Some ip) 0 (first_message host).

(** Does a board built from the FEN of [b], in the mode [c960], have the
    FEN of [b]. *)
Definition fen_survives (b : PyChess.board) (c960 : bool) : bool :=
  match PyChess.board_of_fen (PyChess.fen b) c960 with
  | Ok b' => bool_decide (PyChess.fen b' = PyChess.fen b)
  | Err _ => false
  end.

(** ** Observations on windows, sessions and geometry *)

Section Observations.
Context {Board : Type} {E : RulesEngine Board}.

Local Abbreviation MainWindow := (@MainWindow Board).
Local Abbreviation outcome := (@outcome Board).

(** Did a call of [performMove] return [True]. *)
Definition succeeded (o : outcome bool) : bool :=
  match o with
  | Returned true _ => true
  | _ => false
  end.

(** A press that the guards of [mousePressEvent] let through lands on one of
    the 64 squares of the picture. *)
Definition in_board (ev : MouseEvent) : Prop :=
  match ev with
  | OnSquare col row => col < 8 /\ row < 8
  | _ => True
  end.

(** The square a press on column [col], row [row] of the picture stands
    for, by [getPostFromCoordinates] and [chess.square]. *)
Definition pressed_square (w : MainWindow) (col row : nat) : Square :=
  match getPostFromCoordinates col row w with
  | Returned fr _ => square fr.1 fr.2
  | Raised _ _ => 0
  end.

(** The text [mousePressEvent] builds for that square (line 185). *)
Definition coordinates (w : MainWindow) (col row : nat) : string :=
  match getPostFromCoordinates col row w with
  | Returned fr _ => chr (fr.1 + 97) +:+ str_nat (fr.2 + 1)
  | Raised _ _ => ""
  end.

(** What [pieceToMove] holds between two presses: no piece, or a piece with
    the name of the square it was picked on. *)
Definition selection_ok (w : MainWindow) : Prop :=
  (pieceToMove w).1 = None
  \/ exists sq : Square, sq < 64 /\ (pieceToMove w).2 = Some (square_name sq).

(** The window after a press that selected the square [sq]. *)
Definition selected (sq : Square) (w : MainWindow) : MainWindow :=
  set_log (log w ++ [(INFO, "Selected: " +:+ str_opt str_piece (piece_at (chessboard w) sq))])
    (set_pieceToMove (piece_at (chessboard w) sq, Some (square_name sq))
       (set_lastMove (Some (mkMove sq sq None)) w)).

(** The window after the reader only stored and logged each of [chunks]. *)
Definition all_received (chunks : list string) (w : MainWindow) : MainWindow :=
  fold_left (fun w data => received data w) chunks w.

(** Two peers agree: the same position on both boards, and the turn on
    exactly one side. *)
Definition in_sync (a b : MainWindow) : Prop :=
  chessboard a = chessboard b /\ isMyMove a = negb (isMyMove b).

(** A mouse press on the window [a], after which the reader of the peer [b]
    gets what [a] wrote to the socket during the press, one message per
    read; when [send] raised nothing was written and the peer reads
    nothing. *)
Definition press_then_deliver (ev : MouseEvent) (ab : MainWindow * MainWindow)
    : MainWindow * MainWindow :=
  let a' := state_of (mousePressEvent ev ab.1) in
  (a', state_of (_socketReader (drop (length (sent ab.1)) (sent a')) ab.2)).

(** A game as the presses made in turn on either side, [true] for a press on
    the first window and [false] for one on the second.  No connection is
    lost or restored on the way: each [appSocket] stays as it is. *)
Fixpoint play (presses : list (bool * MouseEvent)) (ab : MainWindow * MainWindow)
    : MainWindow * MainWindow :=
  match presses with
  | [] => ab
  | (side, ev) :: rest =>
      play rest
        (if side then press_then_deliver ev ab
         else let ba := press_then_deliver ev (ab.2, ab.1) in (ba.2, ba.1))
  end.

End Observations.

(** The integer part of the geometry [resizeWindow] computes. *)
Record Geometry : Set := mkGeometry {
  width : Z;
  height : Z;
  windowSize : Z;
  cbSize : Z;
  svgX : Z;
  svgY : Z
}.

(** [MainWindow.resizeWindow], on its integer attributes, for the sizes a
    Qt geometry can hold (C integers, below [2^31]): the window is at least
    200 by 200, the board takes three quarters of its smaller side and is
    put one eighth of its own size from the top left corner.  Line 89
    computes [int(windowSize * 0.75)] as a float product; while
    [3 * windowSize < 2^53] that product is exact and its truncation is
    [windowSize * 3 / 4], which is all this definition stands for: larger
    sides are outside the model.  The attributes [margin] and [squareSize]
    are floating-point values derived from [cbSize] and are left out, as is
    the position of the window. *)
Definition resizeWindow (width height : Z) : Geometry :=
  let width := Z.max width 200 in
  let height := Z.max height 200 in
  let windowSize := Z.min width height in
  let cbSize := (windowSize * 3 / 4)%Z in
  {| width := width;
     height := height;
     windowSize := windowSize;
     cbSize := cbSize;
     svgX := (cbSize / 8)%Z;
     svgY := (cbSize / 8)%Z |}.

(** The outer guard of [mousePressEvent] (line 178) on the pixel [(x, y)]:
    the press is on the board widget. *)
Definition on_widget (g : Geometry) (x y : Z) : bool :=
  (svgX g <? x)%Z && (x <=? svgX g + cbSize g)%Z
  && (svgY g <? y)%Z && (y <=? svgY g + cbSize g)%Z.

(** * Properties *)

Section Protocol.
Context {Board : Type} {E : RulesEngine Board}.

Ltac run :=
  unfold performMove, _updateMoveOnboard, _socketReader_step, mousePressEvent_move,
    mousePressEvent, getPostFromCoordinates, connectNetwork,
    focusWindow, update, appSocket_send, logging, lift, bind, ret, raise, get, modify.

Ltac setters :=
  unfold received, refused, got_event, set_chessboard, set_pieceToMove, set_isMyMove, set_lastMove,
    set_check, set_lastReceived, set_popup, set_updates, set_sent, set_log,
    set_appSocket in *.

Lemma _updateMoveOnboard_moved (move : Move) (w : MainWindow) :
  _updateMoveOnboard move w = Returned true (moved move w).
Proof.
  run; unfold moved; setters; simpl.
  destruct (is_check (push (chessboard w) move)); simpl;
    destruct (is_checkmate (push (chessboard w) move)); reflexivity.
Qed.

Lemma performMove_undecoded (w : MainWindow) (t : string) (e : exn) :
  from_uci t = Err e -> performMove t w = Raised e w.
Proof. intros H. run. now rewrite H. Qed.

Lemma performMove_legal (w : MainWindow) (t : string) (m : Move) :
  from_uci t = Ok m -> is_legal (chessboard w) m = true ->
  performMove t w = Returned true (moved m w).
Proof.
  intros H L. rewrite <- _updateMoveOnboard_moved.
  unfold performMove, lift, bind, ret, get. now rewrite H, L.
Qed.

Lemma performMove_fallback (w : MainWindow) (t : string) (m mq : Move) :
  from_uci t = Ok m -> is_legal (chessboard w) m = false ->
  from_uci (t +:+ "q") = Ok mq -> is_legal (chessboard w) mq = true ->
  performMove t w = Returned true (moved mq w).
Proof.
  intros H L Hq Lq. rewrite <- _updateMoveOnboard_moved.
  unfold performMove, lift, bind, ret, get. now rewrite H, L, Hq, Lq.
Qed.

Lemma performMove_fallback_undecoded (w : MainWindow) (t : string) (m : Move) (e : exn) :
  from_uci t = Ok m -> is_legal (chessboard w) m = false ->
  from_uci (t +:+ "q") = Err e ->
  performMove t w = Raised e w.
Proof. intros H L Hq. run. now rewrite H, L, Hq. Qed.

Lemma performMove_refused (w : MainWindow) (t : string) (m mq : Move) :
  from_uci t = Ok m -> is_legal (chessboard w) m = false ->
  from_uci (t +:+ "q") = Ok mq -> is_legal (chessboard w) mq = false ->
  performMove t w =
    match from_uci_obj (lastReceived w) with
    | Ok last => Returned false (set_lastMove (Some last) (refused w))
    | Err e => Raised e (refused w)
    end.
Proof.
  intros H L Hq Lq. run. rewrite H, L, Hq, Lq. cbn.
  now destruct (from_uci_obj (lastReceived w)).
Qed.

Lemma performMove_ends_so (w : MainWindow) (t : string) :
  performMove_ends w (performMove t w).
Proof.
  destruct (from_uci t) as [m|e] eqn:H.
  2: { rewrite (performMove_undecoded _ _ _ H). constructor. }
  destruct (is_legal (chessboard w) m) eqn:L.
  { rewrite (performMove_legal _ _ _ H L). now constructor. }
  destruct (from_uci (t +:+ "q")) as [mq|e] eqn:Hq.
  2: { rewrite (performMove_fallback_undecoded _ _ _ _ H L Hq). constructor. }
  destruct (is_legal (chessboard w) mq) eqn:Lq.
  { rewrite (performMove_fallback _ _ _ _ H L Hq Lq). now constructor. }
  rewrite (performMove_refused _ _ _ _ H L Hq Lq).
  destruct (from_uci_obj (lastReceived w)) eqn:R; now constructor.
Qed.

(** [performMove] never writes [isMyMove] or [lastReceived]. *)
Lemma performMove_keeps_flags (w : MainWindow) (t : string) :
  isMyMove (state_of (performMove t w)) = isMyMove w
  /\ lastReceived (state_of (performMove t w)) = lastReceived w.
Proof. destruct (performMove_ends_so w t); now split. Qed.

(** Unless it returns [True], [performMove] leaves the board as it was. *)
Lemma performMove_keeps_board (w : MainWindow) (t : string) :
  (forall w', performMove t w <> Returned true w') ->
  chessboard (state_of (performMove t w)) = chessboard w.
Proof.
  intros N. destruct (performMove_ends_so w t); try reflexivity.
  now destruct (N (moved m w)).
Qed.

Lemma mousePressEvent_move_keeps_lastReceived (w : MainWindow) (t : string) :
  lastReceived (state_of (mousePressEvent_move t w)) = lastReceived w.
Proof.
  unfold mousePressEvent_move, appSocket_send, logging, bind, modify, get, raise.
  match goal with |- context [performMove t ?w1] =>
    destruct (performMove_ends_so w1 t) end; try reflexivity.
  cbn. now destruct (appSocket w).
Qed.

Lemma mousePressEvent_keeps_lastReceived (ev : MouseEvent) (w : MainWindow) :
  lastReceived (state_of (mousePressEvent ev w)) = lastReceived w.
Proof.
  destruct ev as [| | |col row]; unfold mousePressEvent, bind, get, ret;
    destruct (isMyMove w); try reflexivity.
  cbn [negb].
  unfold getPostFromCoordinates, bind, get, ret.
  destruct (flipped w); cbn [fst snd];
    (destruct (pieceToMove w).1;
     [ match goal with |- context [mousePressEvent_move ?t w] =>
         pose proof (mousePressEvent_move_keeps_lastReceived w t) as K;
         destruct (mousePressEvent_move t w) end; exact K
     | unfold lift; match goal with |- context [from_uci ?t] =>
         destruct (from_uci t) end; reflexivity ]).
Qed.

Lemma after_clicks_keeps_lastReceived (events : list MouseEvent) (w : MainWindow) :
  lastReceived (after_clicks events w) = lastReceived w.
Proof.
  revert w. induction events as [|ev events IH]; intros w; [reflexivity|].
  cbn. unfold after_clicks in IH. rewrite IH.
  apply mousePressEvent_keeps_lastReceived.
Qed.

Lemma list_index_bound {A} `{EqDecision A} (x : A) (l : list A) (i : nat) :
  list_index x l = Some i -> i < length l.
Proof.
  revert i. induction l as [|y l IH]; intros i; cbn; [discriminate|].
  case_decide.
  - intros [= <-]. lia.
  - destruct (list_index x l) as [j|]; cbn; [|discriminate].
    intros [= <-]. specialize (IH j eq_refl). lia.
Qed.

Lemma square_of_name_bound (s : string) (i : Square) :
  square_of_name s = Ok i -> i < 64.
Proof.
  unfold square_of_name. destruct (list_index s SQUARE_NAMES) as [j|] eqn:L; [|discriminate].
  intros [= <-]. exact (list_index_bound _ _ _ L).
Qed.

(** Every move the decoder yields is between two squares of the board. *)
Lemma from_uci_valid (t : string) (m : Move) :
  from_uci t = Ok m -> valid_move m.
Proof.
  unfold from_uci, valid_move.
  case_decide; [intros [= <-]; cbn; lia|].
  case_decide.
  - destruct (square_of_name (substring 0 2 t)) as [f|] eqn:F; [|discriminate].
    destruct (square_of_name (substring 2 2 t)) as [g|] eqn:G; [|discriminate].
    intros [= <-]. cbn. eauto using square_of_name_bound.
  - case_decide; [|discriminate].
    destruct (piece_of_symbol (substring 4 1 t)); [|discriminate].
    destruct (square_of_name (substring 0 2 t)) as [f|] eqn:F; [|discriminate].
    destruct (square_of_name (substring 2 2 t)) as [g|] eqn:G; [|discriminate].
    intros [= <-]. cbn. eauto using square_of_name_bound.
Qed.

(** The local move attempt, by what [performMove] does on the token and
    what [send] finds. *)
Lemma mousePressEvent_move_by_cases (w : MainWindow) (t : string) :
  mousePressEvent_move t w
  = match performMove t (got_event t w) with
    | Returned true w' =>
        match appSocket w' with
        | Connected =>
            Returned tt (set_log (log w' ++ [(INFO, "Sent " +:+ t)])
                           (set_sent (sent w' ++ [t]) (set_isMyMove false w')))
        | Broken => Raised SocketError (set_isMyMove false w')
        end
    | Returned false w' => Returned tt w'
    | Raised e w' => Raised e w'
    end.
Proof.
  unfold mousePressEvent_move, logging, appSocket_send, bind, modify, ret, get, raise,
    got_event.
  match goal with |- context [performMove t ?x] =>
    destruct (performMove t x) as [[|] w'|e w'] end; try reflexivity.
  cbn. now destruct (appSocket w').
Qed.

(** [performMove] never touches the connection. *)
Lemma performMove_keeps_appSocket (w : MainWindow) (t : string) :
  appSocket (state_of (performMove t w)) = appSocket w.
Proof. now destruct (performMove_ends_so w t). Qed.

(** One turn of the reader, by the turn flag and what [performMove] does. *)
Lemma _socketReader_step_by_cases (w : MainWindow) (data : string) :
  _socketReader_step data w
  = if isMyMove w then Returned tt (received data w)
    else match performMove data (received data w) with
         | Returned true w' =>
             Returned tt (set_log (log w' ++ [(INFO, "My Move:True")])
                            (set_isMyMove true w'))
         | Returned false w' => Returned tt w'
         | Raised e w' => Raised e w'
         end.
Proof.
  unfold _socketReader_step, logging, bind, modify, get, ret, received. cbn.
  destruct (isMyMove w); cbn; [reflexivity|].
  match goal with |- context [performMove data ?x] =>
    now destruct (performMove data x) as [[|] w'|e w'] end.
Qed.

(** A mouse press changes the turn only by a move attempt that
    [performMove] accepts. *)
Lemma mousePressEvent_turn (ev : MouseEvent) (w : MainWindow) :
  isMyMove (state_of (mousePressEvent ev w)) = isMyMove w
  \/ (isMyMove w = true
      /\ isMyMove (state_of (mousePressEvent ev w)) = false
      /\ exists (t : string) (w' : MainWindow),
           performMove t (got_event t w) = Returned true w').
Proof.
  destruct ev as [| | |col row]; unfold mousePressEvent, bind, get, ret;
    destruct (isMyMove w) eqn:F; try (left; cbn; now rewrite ?F).
  cbn [negb].
  unfold getPostFromCoordinates, bind, get, ret.
  destruct (flipped w); cbn [fst snd];
    (destruct (pieceToMove w).1;
     [ match goal with |- context [mousePressEvent_move ?t w] =>
         rewrite (mousePressEvent_move_by_cases w t);
         pose proof (performMove_keeps_flags (got_event t w) t) as [K _];
         destruct (performMove t (got_event t w)) as [[|] w'|e w'] eqn:P;
         [ right; split; [reflexivity|]; split; [now destruct (appSocket w')|];
           now exists t, w'
         | left; cbn in *; now rewrite K
         | left; cbn in *; now rewrite K ]
       end
     | left; unfold lift; match goal with |- context [from_uci ?t] =>
         destruct (from_uci t) end; cbn; now rewrite ?F ]).
Qed.

End Protocol.

(** ** Promotion fallback *)

(** C1. Whenever the token decodes to a move that is illegal on the board
    and the token with [q] appended decodes to a legal one, [performMove]
    plays that move and returns [True], exactly as it does on the suffixed
    token.  In particular on a board with a white pawn on e7 and white to
    move, ["e7e8"] succeeds, leaves the window ["e7e8q"] leaves, and puts a
    white queen on e8. *)
Theorem promotion_fallback_applies :
  (forall (Board : Type) (E : RulesEngine Board) (w : MainWindow) (t : string) (m mq : Move),
      from_uci t = Ok m ->
      is_legal (chessboard w) m = false ->
      from_uci (t +:+ "q") = Ok mq ->
      is_legal (chessboard w) mq = true ->
      performMove t w = Returned true (moved mq w)
      /\ performMove t w = performMove (t +:+ "q") w
      /\ chessboard (moved mq w) = push (chessboard w) mq)
  /\ (forall w : MainWindow,
        chessboard w = pawn_e7 ->
        exists w' : MainWindow,
          performMove "e7e8" w = Returned true w'
          /\ performMove "e7e8q" w = Returned true w'
          /\ piece_at (chessboard w') E8 = Some (mkPiece QUEEN WHITE)).
Proof.
  assert (G : forall (Board : Type) (E : RulesEngine Board) (w : MainWindow) (t : string)
                     (m mq : Move),
      from_uci t = Ok m ->
      is_legal (chessboard w) m = false ->
      from_uci (t +:+ "q") = Ok mq ->
      is_legal (chessboard w) mq = true ->
      performMove t w = Returned true (moved mq w)
      /\ performMove t w = performMove (t +:+ "q") w
      /\ chessboard (moved mq w) = push (chessboard w) mq).
  { intros Board E w t m mq H L Hq Lq. split; [|split].
    - exact (performMove_fallback w t m mq H L Hq Lq).
    - rewrite (performMove_fallback w t m mq H L Hq Lq).
      symmetry. exact (performMove_legal w (t +:+ "q") mq Hq Lq).
    - reflexivity. }
  split; [exact G|].
  intros w Hw.
  destruct (G _ pychess w "e7e8" (mkMove 52 60 None) (mkMove 52 60 (Some QUEEN)))
    as (P1 & P2 & P3).
  - reflexivity.
  - rewrite Hw. vm_compute. reflexivity.
  - reflexivity.
  - rewrite Hw. vm_compute. reflexivity.
  - exists (moved (mkMove 52 60 (Some QUEEN)) w). split; [exact P1|]. split.
    + rewrite <- P1. symmetry. exact P2.
    + rewrite P3, Hw. vm_compute. reflexivity.
Qed.

Lemma promotion_fallback_witness :
  performMove "e7e8" window_e7
  = Returned true (moved (mkMove 52 60 (Some QUEEN)) window_e7)
  /\ performMove "e7e8" window_e7 = performMove "e7e8q" window_e7
  /\ chessboard (moved (mkMove 52 60 (Some QUEEN)) window_e7)
     = push (chessboard window_e7) (mkMove 52 60 (Some QUEEN)).
Proof.
  apply (proj1 promotion_fallback_applies _ pychess window_e7 "e7e8" (mkMove 52 60 None)).
  - reflexivity.
  - vm_compute. reflexivity.
  - reflexivity.
  - vm_compute. reflexivity.
Defined.

(** ** Rejection of illegal moves *)

(** C2. On the host's window for the standard starting board, before any
    message arrived, the illegal token ["e2e5"] does not make [performMove]
    return [False]: the call raises [TypeError] after logging the refusal.
    The board and its FEN are as before.  The same happens when the token
    comes from the mouse, e2 pressed and then e5. *)
Theorem illegal_move_on_host_raises :
  lastReceived host0 = None
  /\ is_legal (chessboard host0) (mkMove 12 36 None) = false
  /\ is_legal (chessboard host0) (mkMove 12 36 (Some QUEEN)) = false
  /\ performMove "e2e5" host0 = Raised TypeError (refused host0)
  /\ fen (chessboard (refused host0)) = fen (chessboard host0)
  /\ mousePressEvent (OnSquare 4 3) (after_clicks [OnSquare 4 6] host0)
     = Raised TypeError (refused (got_event "e2e5" (after_clicks [OnSquare 4 6] host0)))
  /\ fen (chessboard (refused (got_event "e2e5" (after_clicks [OnSquare 4 6] host0))))
     = fen (chessboard host0).
Proof.
  assert (L : is_legal (chessboard host0) (mkMove 12 36 None) = false)
    by (vm_compute; reflexivity).
  assert (Lq : is_legal (chessboard host0) (mkMove 12 36 (Some QUEEN)) = false)
    by (vm_compute; reflexivity).
  split; [reflexivity|]. split; [exact L|]. split; [exact Lq|].
  split; [|split; [|split]].
  - now rewrite (performMove_refused host0 "e2e5" _ _ eq_refl L eq_refl Lq).
  - reflexivity.
  - vm_compute. reflexivity.
  - vm_compute. reflexivity.
Qed.

(** C10. On the host, after any run of mouse presses and before any message
    was received, [lastReceived] is still [None]; so whenever a token and
    its queen-suffixed variant both decode to illegal moves, the recovery
    branch of [performMove] raises [TypeError] where a refusal was to be
    returned. *)
Theorem recovery_branch_raises_before_first_message :
  forall (Board : Type) (E : RulesEngine Board) (c960 : bool) (rnd : nat) (unused : string)
         (events : list MouseEvent) (t : string) (m mq : Move),
    let w := after_clicks events (state_of (MainWindow_init c960 None rnd unused)) in
    from_uci t = Ok m ->
    is_legal (chessboard w) m = false ->
    from_uci (t +:+ "q") = Ok mq ->
    is_legal (chessboard w) mq = false ->
    lastReceived w = None
    /\ performMove t w = Raised TypeError (refused w)
    /\ forall (b : bool) (w' : MainWindow), performMove t w = Returned b w' -> False.
Proof.
  intros Board E c960 rnd unused events t m mq w H L Hq Lq.
  assert (N : lastReceived w = None).
  { unfold w. rewrite after_clicks_keeps_lastReceived. reflexivity. }
  assert (P : performMove t w = Raised TypeError (refused w)).
  { rewrite (performMove_refused w t m mq H L Hq Lq), N. reflexivity. }
  split; [exact N|]. split; [exact P|].
  intros b w' R. rewrite P in R. discriminate R.
Qed.

Lemma recovery_branch_witness :
  lastReceived (after_clicks [OnSquare 4 6] host0) = None
  /\ performMove "e2e5" (after_clicks [OnSquare 4 6] host0)
     = Raised TypeError (refused (after_clicks [OnSquare 4 6] host0))
  /\ forall (b : bool) (w' : MainWindow),
       performMove "e2e5" (after_clicks [OnSquare 4 6] host0) = Returned b w' -> False.
Proof.
  apply (recovery_branch_raises_before_first_message _ pychess false 0 "" [OnSquare 4 6]
           "e2e5" (mkMove 12 36 None) (mkMove 12 36 (Some QUEEN))).
  - reflexivity.
  - vm_compute. reflexivity.
  - reflexivity.
  - vm_compute. reflexivity.
Defined.

(** ** The turn guard *)

(** C3, as stated, fails: [performMove] has no turn guard of its own.  On
    the client, whose [isMyMove] is false, a call of [performMove] on a legal
    token plays the move, and so does the local move attempt built on it; on
    the host, whose [isMyMove] is true, a call on a token as the reader
    makes it plays the move as well. *)
Lemma performMove_has_no_turn_guard :
  isMyMove client0 = false
  /\ fen (chessboard client0) = "rnbqkbnr/pppppppp/8/8/8/8/PPPPPPPP/RNBQKBNR w KQkq - 0 1"
  /\ performMove "e2e4" client0 = Returned true (moved (mkMove 12 28 None) client0)
  /\ fen (chessboard (moved (mkMove 12 28 None) client0))
     = "rnbqkbnr/pppppppp/8/8/4P3/8/PPPP1PPP/RNBQKBNR b KQkq - 0 1"
  /\ sent (state_of (mousePressEvent_move "e2e4" client0)) = ["e2e4"]
  /\ fen (chessboard (state_of (mousePressEvent_move "e2e4" client0)))
     = "rnbqkbnr/pppppppp/8/8/4P3/8/PPPP1PPP/RNBQKBNR b KQkq - 0 1"
  /\ isMyMove host0 = true
  /\ performMove "e2e4" (received "e2e4" host0)
     = Returned true (moved (mkMove 12 28 None) (received "e2e4" host0))
  /\ fen (chessboard (moved (mkMove 12 28 None) (received "e2e4" host0)))
     = "rnbqkbnr/pppppppp/8/8/4P3/8/PPPP1PPP/RNBQKBNR b KQkq - 0 1".
Proof.
  repeat split; vm_compute; reflexivity.
Qed.

(** C3, amended. The turn guard is in the two callers of [performMove]:
    while [isMyMove] is false a mouse press does nothing at all, and while
    it is true the reader only stores and logs what it read, without calling
    [performMove]; neither touches the board or the turn. *)
Theorem turn_guard_is_in_the_callers :
  forall (Board : Type) (E : RulesEngine Board) (w : MainWindow),
    (isMyMove w = false ->
     forall ev : MouseEvent, mousePressEvent ev w = Returned tt w)
    /\ (isMyMove w = true ->
        forall data : string,
          _socketReader_step data w = Returned tt (received data w)
          /\ chessboard (received data w) = chessboard w
          /\ isMyMove (received data w) = true).
Proof.
  intros Board E w. split.
  - intros F ev. unfold mousePressEvent, bind, get, ret. rewrite F.
    now destruct ev.
  - intros T data. split; [|split].
    + unfold _socketReader_step, logging, bind, get, ret, modify. cbn. now rewrite T.
    + reflexivity.
    + exact T.
Qed.

Lemma turn_guard_witness :
  mousePressEvent (OnSquare 4 6) client0 = Returned tt client0
  /\ _socketReader_step "e2e4" host0 = Returned tt (received "e2e4" host0)
  /\ chessboard (received "e2e4" host0) = chessboard host0
  /\ isMyMove (received "e2e4" host0) = true.
Proof.
  split.
  - apply (proj1 (turn_guard_is_in_the_callers _ pychess client0)). reflexivity.
  - apply (proj2 (turn_guard_is_in_the_callers _ pychess host0)). reflexivity.
Defined.

(** ** Turn alternation *)

(** C4. A local move attempt whose [performMove] returns [True] leaves
    [isMyMove] false, a received token whose [performMove] returns [True]
    leaves it true; when [performMove] returns [False] or raises, either
    caller leaves [isMyMove] as it was; and a mouse press changes the turn
    only from the local side to the remote one, by such a successful
    attempt. *)
Theorem turn_ownership_alternates :
  forall (Board : Type) (E : RulesEngine Board) (w : MainWindow) (t : string),
    (isMyMove w = true ->
     forall w', performMove t (got_event t w) = Returned true w' ->
       turn_state w = AwaitingLocalMove
       /\ turn_state (state_of (mousePressEvent_move t w)) = AwaitingRemoteMove)
    /\ (isMyMove w = false ->
        forall w', performMove t (received t w) = Returned true w' ->
          turn_state w = AwaitingRemoteMove
          /\ turn_state (state_of (_socketReader_step t w)) = AwaitingLocalMove)
    /\ ((forall w', performMove t (got_event t w) = Returned true w' -> False) ->
        turn_state (state_of (mousePressEvent_move t w)) = turn_state w)
    /\ ((forall w', performMove t (received t w) = Returned true w' -> False) ->
        turn_state (state_of (_socketReader_step t w)) = turn_state w)
    /\ (forall ev : MouseEvent,
          turn_state (state_of (mousePressEvent ev w)) = turn_state w
          \/ (turn_state w = AwaitingLocalMove
              /\ turn_state (state_of (mousePressEvent ev w)) = AwaitingRemoteMove
              /\ exists (t' : string) (w' : MainWindow),
                   performMove t' (got_event t' w) = Returned true w')).
Proof.
  intros Board E w t.
  pose proof (mousePressEvent_move_by_cases w t) as L.
  pose proof (_socketReader_step_by_cases w t) as R.
  pose proof (performMove_keeps_flags (got_event t w) t) as [KL _].
  pose proof (performMove_keeps_flags (received t w) t) as [KR _].
  unfold turn_state. split; [|split; [|split; [|split]]].
  - intros T w' P. rewrite T, L, P. now destruct (appSocket w').
  - intros F w' P. rewrite R, F, P. now split.
  - intros N. rewrite L.
    destruct (performMove t (got_event t w)) as [[|] w'|e w']; cbn in *.
    + now destruct (N w').
    + now rewrite KL.
    + now rewrite KL.
  - intros N. rewrite R. destruct (isMyMove w) eqn:F; [cbn; now rewrite F|].
    destruct (performMove t (received t w)) as [[|] w'|e w']; cbn in *.
    + now destruct (N w').
    + now rewrite KR, F.
    + now rewrite KR, F.
  - intros ev. destruct (mousePressEvent_turn ev w) as [S|(T & S & X)].
    + left. now rewrite S.
    + right. now rewrite T, S.
Qed.

Lemma turn_ownership_witness :
  (turn_state host0 = AwaitingLocalMove
   /\ turn_state (state_of (mousePressEvent_move "e2e4" host0)) = AwaitingRemoteMove)
  /\ (turn_state client0 = AwaitingRemoteMove
      /\ turn_state (state_of (_socketReader_step "e2e4" client0)) = AwaitingLocalMove)
  /\ turn_state (state_of (_socketReader_step "e2e5" client0)) = turn_state client0.
Proof.
  split; [|split].
  - apply (proj1 (turn_ownership_alternates _ pychess host0 "e2e4") eq_refl
             (moved (mkMove 12 28 None) (got_event "e2e4" host0))).
    vm_compute. reflexivity.
  - apply (proj1 (proj2 (turn_ownership_alternates _ pychess client0 "e2e4")) eq_refl
             (moved (mkMove 12 28 None) (received "e2e4" client0))).
    vm_compute. reflexivity.
  - apply (proj1 (proj2 (proj2 (proj2 (turn_ownership_alternates _ pychess client0 "e2e5"))))).
    intros w'. vm_compute. discriminate.
Defined.

(** ** Tokens that do not decode *)

(** [from_uci] raises nothing but [ValueError]. *)
Lemma from_uci_raises_ValueError (t : string) (e : exn) :
  from_uci t = Err e -> e = ValueError.
Proof.
  unfold from_uci, square_of_name, piece_of_symbol.
  repeat (case_decide || case_match); congruence.
Qed.

(** C5, as stated, fails: on a token that does not decode [performMove]
    returns nothing, it raises [ValueError]; and the reader does not drop the
    message and go on, the exception ends it: the legal ["e2e4"] that follows
    the malformed ["zz"] is never played, while alone it is played. *)
Lemma malformed_token_raises :
  from_uci "zz" = Err ValueError
  /\ performMove "zz" client0 = Raised ValueError client0
  /\ _socketReader ["zz"; "e2e4"] client0 = Raised ValueError (received "zz" client0)
  /\ fen (chessboard (received "zz" client0))
     = "rnbqkbnr/pppppppp/8/8/8/8/PPPPPPPP/RNBQKBNR w KQkq - 0 1"
  /\ fen (chessboard (state_of (_socketReader ["e2e4"] client0)))
     = "rnbqkbnr/pppppppp/8/8/4P3/8/PPPP1PPP/RNBQKBNR b KQkq - 0 1".
Proof.
  repeat split; vm_compute; reflexivity.
Qed.

(** C5, amended. On a token that does not decode, [performMove] raises
    [ValueError] and leaves every attribute as it was, so the board, the
    turn and the last move are unchanged; a local move attempt on it ends by
    that exception after logging the token.  The reader stores and logs the
    bytes in either turn state: when it is the remote side's turn it hands
    them to [performMove] and is ended by that exception, whatever messages
    follow; when it is the local side's turn the token never reaches
    [performMove] and the reader goes on with the messages that follow. *)
Theorem undecoded_token_raises :
  forall (Board : Type) (E : RulesEngine Board) (w : MainWindow) (t : string) (e : exn),
    from_uci t = Err e ->
    e = ValueError
    /\ performMove t w = Raised ValueError w
    /\ mousePressEvent_move t w = Raised ValueError (got_event t w)
    /\ (isMyMove w = false ->
        forall rest : list string,
          _socketReader (t :: rest) w = Raised ValueError (received t w))
    /\ (isMyMove w = true ->
        forall rest : list string,
          _socketReader (t :: rest) w = _socketReader rest (received t w))
    /\ chessboard (received t w) = chessboard w
    /\ isMyMove (received t w) = isMyMove w
    /\ lastMove (received t w) = lastMove w.
Proof.
  intros Board E w t e H.
  pose proof (from_uci_raises_ValueError t e H) as ->.
  split; [reflexivity|]. split; [|split; [|split; [|split]]].
  - exact (performMove_undecoded w t ValueError H).
  - rewrite mousePressEvent_move_by_cases.
    now rewrite (performMove_undecoded (got_event t w) t ValueError H).
  - intros F rest. cbn [_socketReader]. unfold bind at 1.
    rewrite _socketReader_step_by_cases, F.
    now rewrite (performMove_undecoded (received t w) t ValueError H).
  - intros T rest. cbn [_socketReader]. unfold bind at 1.
    now rewrite _socketReader_step_by_cases, T.
  - repeat split.
Qed.

Lemma undecoded_token_witness :
  ValueError = ValueError
  /\ performMove "zz" client0 = Raised ValueError client0
  /\ mousePressEvent_move "zz" client0 = Raised ValueError (got_event "zz" client0)
  /\ (isMyMove client0 = false ->
      forall rest : list string,
        _socketReader ("zz" :: rest) client0 = Raised ValueError (received "zz" client0))
  /\ (isMyMove client0 = true ->
      forall rest : list string,
        _socketReader ("zz" :: rest) client0 = _socketReader rest (received "zz" client0))
  /\ chessboard (received "zz" client0) = chessboard client0
  /\ isMyMove (received "zz" client0) = isMyMove client0
  /\ lastMove (received "zz" client0) = lastMove client0.
Proof.
  apply (undecoded_token_raises _ pychess client0 "zz" ValueError).
  reflexivity.
Defined.

(** ** Checkmate *)

(** In the model of the rules engine a move always passes the turn. *)
Lemma push_passes_turn (b : PyChess.board) (m : Move) :
  PyChess.b_turn (PyChess.push b m) = negb (PyChess.b_turn b).
Proof. unfold PyChess.push. now case_bool_decide. Qed.

(** C6, as stated, fails: there is no state for a finished game.  When the
    host receives the mating move of Fool's mate the checkmate label is
    shown, and the turn passes to the host as after any other received
    move: the window awaits a local move, and a mouse press is still taken
    as a move attempt. *)
Lemma checkmate_keeps_the_turn_machine_running :
  is_checkmate (chessboard fools_mate) = true
  /\ popup fools_mate = Some "Checkmate! Black wins!"
  /\ turn_state fools_mate_before_mate = AwaitingRemoteMove
  /\ turn_state fools_mate = AwaitingLocalMove
  /\ log (after_clicks [OnSquare 4 6; OnSquare 4 4] fools_mate)
     = (log fools_mate ++ [(INFO, "Selected: P"); (INFO, "Got event e2e4");
                           (ERROR, "Move not legal"); (INFO, "Selected: None")])%list.
Proof.
  repeat split; vm_compute; reflexivity.
Qed.

(** C6, amended. Whenever [performMove] returns [True] and the position
    reached is checkmate, the checkmate label names as winner the side not
    to move in that position, and [performMove] leaves the turn flag to its
    caller, which passes the turn as after any successful move.  In the
    model of the rules engine the winner is the side that was to move
    before, and replaying f2f3, e7e5, g2g4, d8h4 from the standard start
    ends with the label for Black. *)
Theorem checkmate_is_notified :
  (forall (Board : Type) (E : RulesEngine Board) (w w' : MainWindow) (t : string),
      performMove t w = Returned true w' ->
      is_checkmate (chessboard w') = true ->
      popup w' = Some (Checkmate (negb (turn (chessboard w'))))
      /\ isMyMove w' = isMyMove w)
  /\ (forall (w w' : MainWindow) (t : string),
        performMove (E := pychess) t w = Returned true w' ->
        turn (chessboard w') = negb (turn (chessboard w)))
  /\ popup fools_mate = Some (Checkmate BLACK)
  /\ fen (chessboard fools_mate)
     = "rnb1kbnr/pppp1ppp/8/4p3/6Pq/5P2/PPPPP2P/RNBQKBNR w KQkq - 1 3".
Proof.
  split; [|split; [|split]].
  - intros Board E w w' t P C.
    pose proof (performMove_ends_so w t) as K. rewrite P in K.
    inversion K as [|m L| |]; subst.
    cbn in C. cbn. rewrite C. split; [|reflexivity].
    unfold Checkmate. now destruct (turn (push (chessboard w) m)).
  - intros w w' t P.
    pose proof (performMove_ends_so w t) as K. rewrite P in K.
    inversion K as [|m L| |]; subst.
    apply push_passes_turn.
  - vm_compute. reflexivity.
  - vm_compute. reflexivity.
Qed.

Lemma checkmate_witness :
  popup fools_mate = Some (Checkmate (negb (turn (chessboard fools_mate))))
  /\ isMyMove (moved (mkMove 59 31 None) (received "d8h4" fools_mate_before_mate))
     = isMyMove (received "d8h4" fools_mate_before_mate).
Proof.
  destruct (proj1 checkmate_is_notified _ pychess
              (received "d8h4" fools_mate_before_mate)
              (moved (mkMove 59 31 None) (received "d8h4" fools_mate_before_mate))
              "d8h4") as [P F].
  - apply performMove_legal; [reflexivity|]. vm_compute. reflexivity.
  - vm_compute. reflexivity.
  - split; [|exact F]. vm_compute. reflexivity.
Defined.

(** ** The reader loop *)

(** C7, as stated, fails: a message read while it is the local side's turn
    is stored and logged but never handed to [performMove], although
    [performMove] would play it; and a message whose move is refused brings
    no repaint request. *)
Lemma reader_drops_messages_out_of_turn :
  isMyMove host0 = true
  /\ _socketReader_step "e2e4" host0 = Returned tt (received "e2e4" host0)
  /\ fen (chessboard (received "e2e4" host0))
     = "rnbqkbnr/pppppppp/8/8/8/8/PPPPPPPP/RNBQKBNR w KQkq - 0 1"
  /\ fen (chessboard (state_of (performMove "e2e4" (received "e2e4" host0))))
     = "rnbqkbnr/pppppppp/8/8/4P3/8/PPPP1PPP/RNBQKBNR b KQkq - 0 1"
  /\ updates (received "e2e4" host0) = updates host0
  /\ isMyMove client0 = false
  /\ performMove "e2e5" (received "e2e5" client0)
     = Returned false (set_lastMove (Some (mkMove 12 36 None))
                         (refused (received "e2e5" client0)))
  /\ updates (state_of (_socketReader_step "e2e5" client0)) = updates client0.
Proof.
  repeat split; vm_compute; reflexivity.
Qed.

(** C7, amended. Each chunk read is stored in [lastReceived] and logged;
    it is handed to [performMove] only while [isMyMove] is false, and then
    the turn passes to the local side exactly when [performMove] returns
    [True]; a repaint is requested exactly when a move was played. *)
Theorem reader_feeds_moves_in_turn :
  forall (Board : Type) (E : RulesEngine Board) (w : MainWindow) (data : string),
    _socketReader_step data w
    = (if isMyMove w then Returned tt (received data w)
       else match performMove data (received data w) with
            | Returned true w' =>
                Returned tt (set_log (log w' ++ [(INFO, "My Move:True")])
                               (set_isMyMove true w'))
            | Returned false w' => Returned tt w'
            | Raised e w' => Raised e w'
            end)
    /\ updates (state_of (_socketReader_step data w))
       = match isMyMove w, performMove data (received data w) with
         | false, Returned true _ => S (updates w)
         | _, _ => updates w
         end.
Proof.
  intros Board E w data.
  split; [apply _socketReader_step_by_cases|].
  rewrite _socketReader_step_by_cases.
  destruct (isMyMove w); [reflexivity|].
  destruct (performMove_ends_so (received data w) data); reflexivity.
Qed.

(** ** Session bootstrap *)

Lemma host_of_board (c960 : bool) (rnd : nat) :
  chessboard (host_of c960 rnd)
  = (if c960 then PyChess.from_chess960_pos rnd else PyChess.starting_board)
  /\ sent (host_of c960 rnd) = [fen (chessboard (host_of c960 rnd))].
Proof. now destruct c960. Qed.

Lemma client_of_board (host : MainWindow) (c960 : bool) (ip : string) (b : PyChess.board) :
  truthy (Some ip) = true ->
  PyChess.board_of_fen (first_message host) c960 = Ok b ->
  returns (client_of host c960 ip) = true
  /\ chessboard (state_of (client_of host c960 ip)) = b.
Proof.
  intros T H. unfold client_of, MainWindow_init, connectNetwork.
  rewrite T. cbn [negb].
  unfold logging, lift, bind, modify, get, ret. cbn.
  rewrite H. now split.
Qed.

Lemma fen_survives_sound (b : PyChess.board) (c960 : bool) :
  fen_survives b c960 = true ->
  exists b', PyChess.board_of_fen (PyChess.fen b) c960 = Ok b'
             /\ PyChess.fen b' = PyChess.fen b.
Proof.
  unfold fen_survives. destruct (PyChess.board_of_fen (PyChess.fen b) c960) as [b'|];
    [|discriminate].
  intros H. exists b'. split; [reflexivity|]. now apply bool_decide_eq_true in H.
Qed.

Lemma starting_fen_survives (c960 : bool) :
  fen_survives PyChess.starting_board c960 = true.
Proof. destruct c960; vm_compute; reflexivity. Qed.

Lemma chess960_fen_survives (rnd : nat) :
  rnd < 960 -> fen_survives (PyChess.from_chess960_pos rnd) true = true.
Proof.
  intros H.
  assert (A : forallb (fun n => fen_survives (PyChess.from_chess960_pos n) true)
                      (seq 0 960) = true) by (vm_compute; reflexivity).
  rewrite forallb_forall in A. apply A, in_seq. lia.
Qed.

(** C8, as stated, fails: the client builds its board in the mode of its own
    [--c960] option.  When the host drew the Chess960 position 0 and the
    client was started without the option, the client's board has no
    castling rights, and its FEN differs from the one the host sent. *)
Lemma bootstrap_loses_castling_rights :
  sent (host_of true 0) = ["bbqnnrkr/pppppppp/8/8/8/8/PPPPPPPP/BBQNNRKR w KQkq - 0 1"]
  /\ fen (chessboard (host_of true 0))
     = "bbqnnrkr/pppppppp/8/8/8/8/PPPPPPPP/BBQNNRKR w KQkq - 0 1"
  /\ returns (client_of (host_of true 0) false "10.0.0.1") = true
  /\ fen (chessboard (state_of (client_of (host_of true 0) false "10.0.0.1")))
     = "bbqnnrkr/pppppppp/8/8/8/8/PPPPPPPP/BBQNNRKR w - - 0 1".
Proof.
  repeat split; vm_compute; reflexivity.
Qed.

(** C8, amended. The host sends the FEN of its fresh board, once; when the
    host plays standard chess, or the client too was started with [--c960],
    the client's constructor returns and the FEN of its board is the FEN of
    the host's board, character for character. *)
Theorem bootstrap_preserves_fen :
  forall (c960_host c960_client : bool) (rnd : nat) (ip : string),
    rnd < 960 ->
    truthy (Some ip) = true ->
    c960_host = false \/ c960_client = true ->
    sent (host_of c960_host rnd) = [fen (chessboard (host_of c960_host rnd))]
    /\ returns (client_of (host_of c960_host rnd) c960_client ip) = true
    /\ fen (chessboard (state_of (client_of (host_of c960_host rnd) c960_client ip)))
       = fen (chessboard (host_of c960_host rnd)).
Proof.
  intros c960_host c960_client rnd ip R T M.
  destruct (host_of_board c960_host rnd) as [HB HS].
  split; [exact HS|].
  assert (S : fen_survives (chessboard (host_of c960_host rnd)) c960_client = true).
  { rewrite HB. destruct c960_host.
    - destruct M as [M|M]; [discriminate|]. subst. now apply chess960_fen_survives.
    - apply starting_fen_survives. }
  destruct (fen_survives_sound _ _ S) as (b' & P & F).
  destruct (client_of_board (host_of c960_host rnd) c960_client ip b' T) as [C1 C2].
  - unfold first_message. rewrite HS. exact P.
  - split; [exact C1|]. rewrite C2. exact F.
Qed.

Lemma bootstrap_witness :
  sent (host_of true 518) = [fen (chessboard (host_of true 518))]
  /\ returns (client_of (host_of true 518) true "10.0.0.1") = true
  /\ fen (chessboard (state_of (client_of (host_of true 518) true "10.0.0.1")))
     = fen (chessboard (host_of true 518)).
Proof.
  apply (bootstrap_preserves_fen true true 518 "10.0.0.1").
  - lia.
  - reflexivity.
  - right. reflexivity.
Defined.

(** ** The move codec *)

Lemma square_name_shape (i : Square) :
  i < 64 ->
  exists c1 c2 : ascii,
    square_name i = String c1 (String c2 EmptyString)
    /\ c1 <> "0"%char
    /\ square_of_name (String c1 (String c2 EmptyString)) = Ok i.
Proof.
  intros H.
  assert (A : forallb square_name_checks (seq 0 64) = true) by (vm_compute; reflexivity).
  rewrite forallb_forall in A.
  assert (C : square_name_checks i = true) by (apply A, in_seq; lia).
  unfold square_name_checks in C.
  destruct (square_name i) as [|c1 [|c2 [|]]] eqn:N; try discriminate.
  apply andb_prop in C as [C1 C2].
  exists c1, c2. split; [reflexivity|]. split.
  - intros ->. discriminate.
  - now apply bool_decide_eq_true in C2.
Qed.

(** C9. Decoding the text of a move between two squares of the board gives
    the move back, with a promotion piece or without; so it does for every
    legal move. *)
Theorem move_codec_round_trips :
  forall m : Move, valid_move m -> from_uci (uci m) = Ok m.
Proof.
  intros [f t p] [Hf Ht]. cbn in Hf, Ht.
  destruct (square_name_shape f Hf) as (a1 & a2 & Nf & Zf & Sf).
  destruct (square_name_shape t Ht) as (b1 & b2 & Nt & Zt & St).
  unfold uci. cbn [promotion from_square to_square].
  destruct p as [p|].
  - rewrite Nf, Nt. unfold from_uci.
    destruct p; cbv [String.append piece_symbol]; cbn -[square_of_name];
      (case_decide as D; [exfalso; inversion D; congruence|]);
      rewrite Sf, St; reflexivity.
  - case_decide as D.
    + rewrite D. reflexivity.
    + rewrite Nf, Nt. unfold from_uci. cbv [String.append]. cbn -[square_of_name].
      case_decide as D'; [exfalso; inversion D'; congruence|].
      now rewrite Sf, St.
Qed.

Lemma move_codec_witness :
  from_uci (uci (mkMove 12 28 None)) = Ok (mkMove 12 28 None)
  /\ from_uci (uci (mkMove 52 60 (Some QUEEN))) = Ok (mkMove 52 60 (Some QUEEN))
  /\ is_legal PyChess.starting_board (mkMove 12 28 None) = true
  /\ is_legal pawn_e7 (mkMove 52 60 (Some QUEEN)) = true.
Proof.
  split; [|split; [|split]].
  - apply (move_codec_round_trips (mkMove 12 28 None)). split; cbn; lia.
  - apply (move_codec_round_trips (mkMove 52 60 (Some QUEEN))). split; cbn; lia.
  - vm_compute. reflexivity.
  - vm_compute. reflexivity.
Defined.

(** * Further properties of the program *)

(** ** Tokens and their queen-suffixed variants *)

Lemma length_4 (t : string) :
  String.length t = 4 ->
  exists a b c d : ascii,
    t = String a (String b (String c (String d EmptyString))).
Proof.
  destruct t as [|a [|b [|c [|d [|]]]]]; try discriminate.
  intros _. now exists a, b, c, d.
Qed.

Lemma length_5 (t : string) :
  String.length t = 5 ->
  exists a b c d e : ascii,
    t = String a (String b (String c (String d (String e EmptyString)))).
Proof.
  destruct t as [|a [|b [|c [|d [|e [|]]]]]]; try discriminate.
  intros _. now exists a, b, c, d, e.
Qed.

(** A token that decodes has four or five characters. *)
Lemma from_uci_length (t : string) (m : Move) :
  from_uci t = Ok m -> String.length t = 4 \/ String.length t = 5.
Proof.
  unfold from_uci. case_decide as Z; [subst; intros _; left; reflexivity|].
  case_decide; [intros _; left; assumption|].
  case_decide; [intros _; right; assumption|intros; discriminate].
Qed.

(** On a four-character token other than the null move, the variant with
    [q] appended decodes to the same two squares with a queen. *)
Lemma from_uci_queen_variant (t : string) (m : Move) :
  String.length t = 4 -> t <> "0000" -> from_uci t = Ok m ->
  promotion m = None
  /\ from_uci (t +:+ "q") = Ok (mkMove (from_square m) (to_square m) (Some QUEEN)).
Proof.
  intros L N H. destruct (length_4 t L) as (a & b & c & d & ->).
  unfold from_uci in *. cbv [String.append] in *. cbn -[square_of_name] in *.
  destruct (decide (String a (String b (String c (String d ""))) = "0000"));
    [contradiction|].
  destruct (decide (String a (String b (String c (String d "q"))) = "0000")) as [Z|_];
    [inversion Z|].
  destruct (square_of_name (String a (String b ""))) as [f|]; [|discriminate].
  destruct (square_of_name (String c (String d ""))) as [g|]; [|discriminate].
  injection H as <-. split; reflexivity.
Qed.

(** The variant of the null move and of any five-character token does not
    decode. *)
Lemma from_uci_long_variant (t : string) :
  String.length t = 5 \/ t = "0000" -> from_uci (t +:+ "q") = Err ValueError.
Proof.
  intros [L| ->]; [|reflexivity].
  destruct (length_5 t L) as (a & b & c & d & e & ->).
  unfold from_uci. cbv [String.append]. cbn.
  case_decide as Z; [inversion Z|reflexivity].
Qed.

Section Moves.
Context {Board : Type} {E : RulesEngine Board}.

Local Abbreviation MainWindow := (@MainWindow Board).

(** X1. Whatever the token, [performMove] never writes the turn flag, the
    last received bytes, the selection, the socket, the orientation or the
    variant.  Unless it returns [True] the board, the square in check, the
    checkmate label and the repaint count are as before; when it returns
    [True], one legal move was pushed, recorded as the last move, and one
    repaint requested. *)
Theorem performMove_writes_the_board_only_on_success :
  forall (w : MainWindow) (t : string),
    (is960 (state_of (performMove t w)) = is960 w
     /\ pieceToMove (state_of (performMove t w)) = pieceToMove w
     /\ flipped (state_of (performMove t w)) = flipped w
     /\ isMyMove (state_of (performMove t w)) = isMyMove w
     /\ lastReceived (state_of (performMove t w)) = lastReceived w
     /\ sent (state_of (performMove t w)) = sent w)
    /\ (if succeeded (performMove t w)
        then exists m : Move,
               is_legal (chessboard w) m = true
               /\ chessboard (state_of (performMove t w)) = push (chessboard w) m
               /\ lastMove (state_of (performMove t w)) = Some m
               /\ updates (state_of (performMove t w)) = S (updates w)
        else chessboard (state_of (performMove t w)) = chessboard w
             /\ check (state_of (performMove t w)) = check w
             /\ popup (state_of (performMove t w)) = popup w
             /\ updates (state_of (performMove t w)) = updates w).
Proof.
  intros w t. destruct (performMove_ends_so w t) as [e|m L|e R|last R]; cbn.
  - repeat split.
  - split; [repeat split|]. now exists m.
  - repeat split.
  - repeat split.
Qed.

(** X2. When [performMove] returns [True] the move it pushed is the one the
    token decodes to, or, for a four-character token whose own move is
    illegal, the move between the same two squares that promotes to a
    queen; it never plays between other squares than the token names. *)
Theorem performMove_plays_the_named_squares :
  forall (w w' : MainWindow) (t : string),
    performMove t w = Returned true w' ->
    exists m m' : Move,
      from_uci t = Ok m
      /\ w' = moved m' w
      /\ is_legal (chessboard w) m' = true
      /\ from_square m' = from_square m
      /\ to_square m' = to_square m
      /\ (m' = m
          \/ (String.length t = 4
              /\ is_legal (chessboard w) m = false
              /\ promotion m = None
              /\ promotion m' = Some QUEEN)).
Proof.
  intros w w' t P.
  destruct (from_uci t) as [m|e] eqn:H.
  2: { rewrite (performMove_undecoded _ _ _ H) in P. discriminate. }
  destruct (is_legal (chessboard w) m) eqn:L.
  { rewrite (performMove_legal _ _ _ H L) in P. injection P as <-.
    exists m, m. repeat split; auto. }
  destruct (from_uci (t +:+ "q")) as [mq|e] eqn:Hq.
  2: { rewrite (performMove_fallback_undecoded _ _ _ _ H L Hq) in P. discriminate. }
  destruct (is_legal (chessboard w) mq) eqn:Lq.
  2: { rewrite (performMove_refused _ _ _ _ H L Hq Lq) in P.
       destruct (from_uci_obj (lastReceived w)); discriminate. }
  rewrite (performMove_fallback _ _ _ _ H L Hq Lq) in P. injection P as <-.
  assert (T : String.length t = 4 /\ t <> "0000").
  { destruct (from_uci_length t m H) as [T|T].
    - split; [exact T|]. intros ->.
      rewrite (from_uci_long_variant "0000") in Hq; [discriminate|now right].
    - rewrite (from_uci_long_variant t) in Hq; [discriminate|now left]. }
  destruct T as [T N].
  destruct (from_uci_queen_variant t m T N H) as [Pm Q].
  rewrite Q in Hq. injection Hq as <-.
  exists m, (mkMove (from_square m) (to_square m) (Some QUEEN)).
  repeat split; auto.
Qed.

(** X3. A decodable token of five characters (a move with its promotion
    letter), or the null move, that is illegal on the board makes
    [performMove] raise [ValueError], the attributes untouched: the retry
    with [q] appended cannot decode, so no refusal is returned for it. *)
Theorem performMove_raises_on_illegal_long_token :
  forall (w : MainWindow) (t : string) (m : Move),
    String.length t = 5 \/ t = "0000" ->
    from_uci t = Ok m ->
    is_legal (chessboard w) m = false ->
    performMove t w = Raised ValueError w.
Proof.
  intros w t m T H L.
  exact (performMove_fallback_undecoded w t m ValueError H L (from_uci_long_variant t T)).
Qed.

(** X4. When it is the remote side's turn and the reader gets a
    four-character token that decodes to a move illegal even with a queen,
    the reader returns and goes on: the board and the turn are unchanged,
    and that very move, decoded a second time from [lastReceived], is
    recorded as the last move. *)
Theorem reader_records_the_refused_move :
  forall (w : MainWindow) (t : string) (m mq : Move),
    isMyMove w = false ->
    from_uci t = Ok m ->
    is_legal (chessboard w) m = false ->
    from_uci (t +:+ "q") = Ok mq ->
    is_legal (chessboard w) mq = false ->
    _socketReader_step t w
    = Returned tt (set_lastMove (Some m) (refused (received t w)))
    /\ chessboard (set_lastMove (Some m) (refused (received t w))) = chessboard w
    /\ isMyMove (set_lastMove (Some m) (refused (received t w))) = false.
Proof.
  intros w t m mq F H L Hq Lq.
  rewrite _socketReader_step_by_cases, F.
  rewrite (performMove_refused (received t w) t m mq H L Hq Lq).
  cbn [received set_log set_lastReceived lastReceived from_uci_obj].
  rewrite H. repeat split. exact F.
Qed.

End Moves.

Lemma performMove_plays_the_named_squares_witness :
  exists m m' : Move,
    from_uci "e7e8" = Ok m
    /\ moved (mkMove 52 60 (Some QUEEN)) window_e7 = moved m' window_e7
    /\ is_legal (chessboard window_e7) m' = true
    /\ from_square m' = from_square m
    /\ to_square m' = to_square m
    /\ (m' = m
        \/ (String.length "e7e8" = 4
            /\ is_legal (chessboard window_e7) m = false
            /\ promotion m = None
            /\ promotion m' = Some QUEEN)).
Proof.
  apply (performMove_plays_the_named_squares window_e7
           (moved (mkMove 52 60 (Some QUEEN)) window_e7) "e7e8").
  apply (performMove_fallback window_e7 "e7e8" (mkMove 52 60 None)).
  - reflexivity.
  - vm_compute. reflexivity.
  - reflexivity.
  - vm_compute. reflexivity.
Defined.

Lemma performMove_raises_on_illegal_long_token_witness :
  performMove "e2e4q" client0 = Raised ValueError client0.
Proof.
  apply (performMove_raises_on_illegal_long_token client0 "e2e4q"
           (mkMove 12 28 (Some QUEEN))).
  - left. reflexivity.
  - reflexivity.
  - vm_compute. reflexivity.
Defined.

Lemma reader_records_the_refused_move_witness :
  _socketReader_step "e2e5" client0
  = Returned tt (set_lastMove (Some (mkMove 12 36 None)) (refused (received "e2e5" client0)))
  /\ chessboard (set_lastMove (Some (mkMove 12 36 None)) (refused (received "e2e5" client0)))
     = chessboard client0
  /\ isMyMove (set_lastMove (Some (mkMove 12 36 None)) (refused (received "e2e5" client0)))
     = false.
Proof.
  apply (reader_records_the_refused_move client0 "e2e5" (mkMove 12 36 None)
           (mkMove 12 36 (Some QUEEN))).
  - reflexivity.
  - reflexivity.
  - vm_compute. reflexivity.
  - reflexivity.
  - vm_compute. reflexivity.
Defined.

(** ** The reader loop over several reads *)

Section Reader.
Context {Board : Type} {E : RulesEngine Board}.

Local Abbreviation MainWindow := (@MainWindow Board).

Lemma _socketReader_idle (chunks : list string) (w : MainWindow) :
  isMyMove w = true ->
  _socketReader chunks w = Returned tt (all_received chunks w)
  /\ chessboard (all_received chunks w) = chessboard w
  /\ updates (all_received chunks w) = updates w
  /\ isMyMove (all_received chunks w) = true.
Proof.
  revert w. induction chunks as [|data rest IH]; intros w T; [now repeat split|].
  cbn [_socketReader all_received fold_left]. unfold bind at 1.
  rewrite _socketReader_step_by_cases, T.
  destruct (IH (received data w) T) as (R & B & U & M).
  unfold all_received in *. now rewrite R, B, U, M.
Qed.

(** X6. Without a local move in between, the reader plays at most one of
    the moves it receives: over any run of chunks the repaint count grows
    by one at most, and while it is the local side's turn every chunk is
    only stored and logged, the board untouched, the last one read staying
    in [lastReceived]. *)
Theorem reader_plays_at_most_one_move :
  forall (chunks : list string) (w : MainWindow),
    updates (state_of (_socketReader chunks w)) <= S (updates w)
    /\ (isMyMove w = true ->
        _socketReader chunks w = Returned tt (all_received chunks w)
        /\ chessboard (all_received chunks w) = chessboard w
        /\ lastReceived (all_received chunks w)
           = match last chunks with
             | Some data => Some data
             | None => lastReceived w
             end).
Proof.
  intros chunks w. split.
  - revert w. induction chunks as [|data rest IH]; intros w; [cbn; lia|].
    cbn [_socketReader]. unfold bind at 1.
    rewrite _socketReader_step_by_cases.
    destruct (isMyMove w) eqn:T.
    + destruct (_socketReader_idle rest (received data w) T) as (R & _ & U & _).
      rewrite R. cbn [state_of]. rewrite U. cbn. lia.
    + destruct (performMove_ends_so (received data w) data) as [e|m L|e R|lm R].
      * cbn. lia.
      * match goal with |- context [_socketReader rest ?x] =>
          destruct (_socketReader_idle rest x eq_refl) as (R & _ & U & _) end.
        rewrite R. cbn [state_of]. rewrite U. cbn. lia.
      * cbn. lia.
      * match goal with |- context [_socketReader rest ?x] =>
          specialize (IH x) end.
        cbn in IH. exact IH.
  - intros T. destruct (_socketReader_idle chunks w T) as (R & B & _ & _).
    split; [exact R|]. split; [exact B|].
    clear R B T. revert w. induction chunks as [|data rest IH]; intros w; [reflexivity|].
    cbn [all_received fold_left]. unfold all_received in IH. rewrite IH.
    destruct rest as [|next rest]; [reflexivity|].
    change (last (data :: next :: rest)) with (last (next :: rest)).
    destruct (proj2 (last_is_Some (next :: rest))) as [y ->]; [discriminate|reflexivity].
Qed.

End Reader.

(** ** Mouse presses *)

Lemma below_8 (n : nat) :
  n < 8 -> n = 0 \/ n = 1 \/ n = 2 \/ n = 3 \/ n = 4 \/ n = 5 \/ n = 6 \/ n = 7.
Proof. lia. Qed.

Ltac each_below_8 H :=
  destruct (below_8 _ H) as [->|[->|[->|[->|[->|[->|[->| ->]]]]]]].

(** The text built for a square of the picture is the name of that square. *)
Lemma square_text (file rank : nat) :
  file < 8 -> rank < 8 ->
  chr (file + 97) +:+ str_nat (rank + 1) = square_name (square file rank)
  /\ square file rank < 64.
Proof.
  intros F R. split; [|unfold square; lia].
  each_below_8 F; each_below_8 R; reflexivity.
Qed.

(** Two square names side by side decode to the move between the squares,
    and with [q] appended to the same move promoting to a queen. *)
Lemma from_uci_names (f t : Square) :
  f < 64 -> t < 64 ->
  from_uci (square_name f +:+ square_name t) = Ok (mkMove f t None)
  /\ from_uci ((square_name f +:+ square_name t) +:+ "q") = Ok (mkMove f t (Some QUEEN)).
Proof.
  intros Hf Ht.
  destruct (square_name_shape f Hf) as (a1 & a2 & Nf & Zf & Sf).
  destruct (square_name_shape t Ht) as (b1 & b2 & Nt & Zt & St).
  rewrite Nf, Nt. unfold from_uci. cbv [String.append]. cbn -[square_of_name].
  destruct (decide (String a1 (String a2 (String b1 (String b2 ""))) = "0000")) as [Z|_].
  - inversion Z. congruence.
  - destruct (decide (String a1 (String a2 (String b1 (String b2 "q"))) = "0000"))
      as [Z|_]; [inversion Z|].
    now rewrite Sf, St.
Qed.

Section Mouse.
Context {Board : Type} {E : RulesEngine Board}.

Local Abbreviation MainWindow := (@MainWindow Board).

Lemma pressed_square_eq (w : MainWindow) (col row : nat) :
  col < 8 -> row < 8 ->
  pressed_square w col row
  = (if flipped w then row * 8 + (7 - col) else (7 - row) * 8 + col)
  /\ pressed_square w col row < 64
  /\ coordinates w col row = square_name (pressed_square w col row).
Proof.
  intros C R. unfold pressed_square, coordinates, getPostFromCoordinates, bind, get, ret.
  destruct (flipped w); cbn [fst snd];
    (split; [unfold square; lia|]);
    match goal with |- square ?f ?r < 64 /\ _ =>
      destruct (square_text f r ltac:(lia) ltac:(lia)) as [T B] end;
    now split.
Qed.

(** A press on a square while it is the local side's turn, by whether a
    piece is selected. *)
Lemma mousePressEvent_on_square (w : MainWindow) (col row : nat) :
  isMyMove w = true ->
  mousePressEvent (OnSquare col row) w
  = match (pieceToMove w).1 with
    | Some _ =>
        match mousePressEvent_move
                (str_opt id (pieceToMove w).2 +:+ coordinates w col row) w with
        | Returned _ w1 =>
            Returned tt (set_log (log w1 ++ [(INFO, "Selected: None")])
                           (set_pieceToMove (None, None) w1))
        | Raised e w1 => Raised e w1
        end
    | None =>
        match from_uci (coordinates w col row +:+ coordinates w col row) with
        | Ok move =>
            Returned tt
              (set_log (log w ++ [(INFO, "Selected: " +:+ str_opt str_piece
                                          (piece_at (chessboard w) (pressed_square w col row)))])
                 (set_pieceToMove (piece_at (chessboard w) (pressed_square w col row),
                                   Some (coordinates w col row))
                    (set_lastMove (Some move) w)))
        | Err e => Raised e w
        end
    end.
Proof.
  intros T. unfold mousePressEvent, coordinates, pressed_square, getPostFromCoordinates,
    bind, get, ret. rewrite T. cbn [negb].
  destruct (flipped w); cbn [fst snd];
    (destruct (pieceToMove w).1;
     [ match goal with |- context [mousePressEvent_move ?t w] =>
         destruct (mousePressEvent_move t w) as [[] w1|e w1] end; reflexivity
     | unfold lift; match goal with |- context [from_uci ?t] =>
         destruct (from_uci t) end; reflexivity ]).
Qed.

(** [performMove] raises what the decoder raises, never [socket.error]. *)
Lemma performMove_raises (w w' : MainWindow) (t : string) (e : exn) :
  performMove t w = Raised e w' -> e <> SocketError.
Proof.
  intros P.
  assert (D : forall (u : option string) (e0 : exn),
             from_uci_obj u = Err e0 -> e0 <> SocketError).
  { intros [u|] e0 D; cbn in D; [|now injection D as <-].
    now rewrite (from_uci_raises_ValueError u e0 D). }
  destruct (from_uci t) as [m|e0] eqn:H.
  2: { rewrite (performMove_undecoded _ _ _ H) in P. injection P as <- _.
       exact (D (Some t) e0 H). }
  destruct (is_legal (chessboard w) m) eqn:L.
  { rewrite (performMove_legal _ _ _ H L) in P. discriminate. }
  destruct (from_uci (t +:+ "q")) as [mq|e0] eqn:Hq.
  2: { rewrite (performMove_fallback_undecoded _ _ _ _ H L Hq) in P. injection P as <- _.
       exact (D (Some (t +:+ "q")) e0 Hq). }
  destruct (is_legal (chessboard w) mq) eqn:Lq.
  { rewrite (performMove_fallback _ _ _ _ H L Hq Lq) in P. discriminate. }
  rewrite (performMove_refused _ _ _ _ H L Hq Lq) in P.
  destruct (from_uci_obj (lastReceived w)) as [lm|e0] eqn:R; [discriminate|].
  injection P as <- _. exact (D _ e0 R).
Qed.

(** What a press does to the board, the turn and the socket: nothing, or
    one move was played by [performMove] on a token and the turn passed;
    then the token was sent, or the connection is broken and [send]
    raised. *)
Lemma mousePressEvent_effect (ev : MouseEvent) (w : MainWindow) :
  (chessboard (state_of (mousePressEvent ev w)) = chessboard w
   /\ isMyMove (state_of (mousePressEvent ev w)) = isMyMove w
   /\ sent (state_of (mousePressEvent ev w)) = sent w
   /\ appSocket (state_of (mousePressEvent ev w)) = appSocket w
   /\ forall w' : MainWindow, mousePressEvent ev w <> Raised SocketError w')
  \/ (exists (t : string) (m : Move),
        isMyMove w = true
        /\ performMove t (got_event t w) = Returned true (moved m (got_event t w))
        /\ chessboard (state_of (mousePressEvent ev w)) = push (chessboard w) m
        /\ isMyMove (state_of (mousePressEvent ev w)) = false
        /\ appSocket (state_of (mousePressEvent ev w)) = appSocket w
        /\ match appSocket w with
           | Connected =>
               returns (mousePressEvent ev w) = true
               /\ sent (state_of (mousePressEvent ev w)) = (sent w ++ [t])%list
           | Broken =>
               mousePressEvent ev w
               = Raised SocketError (set_isMyMove false (moved m (got_event t w)))
           end).
Proof.
  destruct (isMyMove w) eqn:T.
  2: { left. destruct ev; unfold mousePressEvent, bind, get, ret; rewrite ?T; cbn;
       now rewrite ?T. }
  destruct ev as [| | |col row];
    try (left; unfold mousePressEvent, bind, get, ret, logging, modify; rewrite ?T; cbn;
         now rewrite ?T).
  rewrite (mousePressEvent_on_square w col row T).
  destruct (pieceToMove w).1.
  - match goal with |- context [mousePressEvent_move ?t w] =>
      rewrite (mousePressEvent_move_by_cases w t);
      pose proof (performMove_ends_so (got_event t w) t) as K;
      destruct (performMove t (got_event t w)) as [[|] w1|e w1] eqn:P;
      [ inversion K as [|m L| |]; subst w1; right; exists t, m
      | inversion K; subst w1; left
      | pose proof (performMove_raises _ _ _ _ P) as N; inversion K; subst; left ]
    end; cbn; rewrite ?T; try (repeat split; congruence).
    destruct (appSocket w) eqn:A; cbn; rewrite ?A; now repeat split.
  - left. match goal with |- context [from_uci ?t] =>
      destruct (from_uci t) as [mv|e] eqn:D end; cbn; rewrite ?T; repeat split; try discriminate.
    intros w' [= -> _]. pose proof (from_uci_raises_ValueError _ _ D). discriminate.
Qed.

End Mouse.

Section Presses.
Context {Board : Type} {E : RulesEngine Board}.

Local Abbreviation MainWindow := (@MainWindow Board).

Lemma mousePressEvent_out_of_turn (ev : MouseEvent) (w : MainWindow) :
  isMyMove w = false -> mousePressEvent ev w = Returned tt w.
Proof.
  intros F. unfold mousePressEvent, bind, get, ret. rewrite F. now destruct ev.
Qed.

Lemma after_clicks_out_of_turn (events : list MouseEvent) (w : MainWindow) :
  isMyMove w = false -> after_clicks events w = w.
Proof.
  intros F. induction events as [|ev events IH]; [reflexivity|].
  unfold after_clicks in *. cbn [fold_left].
  rewrite (mousePressEvent_out_of_turn ev w F). exact IH.
Qed.

(** X7. While it is the local side's turn and no piece is selected, a press
    on a square of the board returns; it selects what stands on the square,
    piece or nothing, under the name of the square, and makes the square the
    highlighted last move; the board, the turn and the socket are
    untouched. *)
Theorem first_press_selects_the_square :
  forall (w : MainWindow) (col row : nat),
    col < 8 -> row < 8 ->
    isMyMove w = true ->
    (pieceToMove w).1 = None ->
    mousePressEvent (OnSquare col row) w
    = Returned tt (selected (pressed_square w col row) w)
    /\ pieceToMove (selected (pressed_square w col row) w)
       = (piece_at (chessboard w) (pressed_square w col row),
          Some (square_name (pressed_square w col row)))
    /\ chessboard (selected (pressed_square w col row) w) = chessboard w
    /\ isMyMove (selected (pressed_square w col row) w) = true
    /\ sent (selected (pressed_square w col row) w) = sent w.
Proof.
  intros w col row C R T N.
  destruct (pressed_square_eq w col row C R) as (_ & B & X).
  split; [|now repeat split].
  rewrite (mousePressEvent_on_square w col row T), N, X.
  destruct (from_uci_names _ _ B B) as [-> _]. reflexivity.
Qed.

(** X8. The picture of a flipped window is the picture of an unflipped one
    turned by half a turn: a press on column [col], row [row] of the one
    stands for the square that a press on column [7 - col], row [7 - row]
    of the other stands for, and the two squares under the same pixel are
    opposite on the board. *)
Theorem flipped_picture_is_turned :
  forall (w1 w2 : MainWindow) (col row : nat),
    col < 8 -> row < 8 ->
    flipped w1 = true -> flipped w2 = false ->
    pressed_square w1 col row = pressed_square w2 (7 - col) (7 - row)
    /\ pressed_square w1 col row + pressed_square w2 col row = 63.
Proof.
  intros w1 w2 col row C R F1 F2.
  destruct (pressed_square_eq w1 col row C R) as (-> & _ & _).
  destruct (pressed_square_eq w2 col row C R) as (-> & _ & _).
  destruct (pressed_square_eq w2 (7 - col) (7 - row)) as (-> & _ & _); [lia|lia|].
  rewrite F1, F2. lia.
Qed.

(** X9. Presses on the board keep the selection well formed, and can end in
    an exception in two ways only.  Either the move attempt was refused and
    the last received bytes do not decode (or nothing was received yet):
    then the board, the turn and the socket are as they were.  Or a move was
    played, the turn given away, and [send] raised [socket.error] on a
    broken connection: then the board has advanced by a legal move, the turn
    is lost and nothing was sent.  Either way the selection stays as it was.
    The token built from two squares always decodes, alone and with [q]
    appended. *)
Theorem press_raises_in_recovery_or_in_send :
  forall (w : MainWindow) (ev : MouseEvent),
    selection_ok w ->
    in_board ev ->
    selection_ok (state_of (mousePressEvent ev w))
    /\ forall (e : exn) (w' : MainWindow),
         mousePressEvent ev w = Raised e w' ->
         pieceToMove w' = pieceToMove w
         /\ ((from_uci_obj (lastReceived w) = Err e
              /\ chessboard w' = chessboard w
              /\ isMyMove w' = isMyMove w
              /\ sent w' = sent w)
             \/ (e = SocketError
                 /\ appSocket w = Broken
                 /\ sent w' = sent w
                 /\ isMyMove w' = false
                 /\ exists m : Move,
                      is_legal (chessboard w) m = true
                      /\ chessboard w' = push (chessboard w) m)).
Proof.
  intros w ev S I.
  destruct (isMyMove w) eqn:T.
  2: { rewrite (mousePressEvent_out_of_turn ev w T). split; [exact S|discriminate]. }
  destruct ev as [| | |col row];
    try (unfold mousePressEvent, bind, get, ret, logging, modify; rewrite ?T; cbn;
         split; [exact S|discriminate]).
  destruct I as [C R].
  destruct (pressed_square_eq w col row C R) as (_ & B & X).
  rewrite (mousePressEvent_on_square w col row T), X.
  destruct (pieceToMove w).1 as [p|] eqn:P.
  - destruct S as [S|(sq & Q & S)]; [congruence|].
    rewrite S. cbn [str_opt id].
    destruct (from_uci_names sq (pressed_square w col row) Q B) as [H Hq].
    set (t := square_name sq +:+ square_name (pressed_square w col row)) in *.
    rewrite (mousePressEvent_move_by_cases w t).
    destruct (is_legal (chessboard (got_event t w)) (mkMove sq (pressed_square w col row) None))
      eqn:L.
    { rewrite (performMove_legal _ _ _ H L). cbn. destruct (appSocket w) eqn:A; cbn.
      - split; [now left|discriminate].
      - split; [right; exists sq; now split|].
        intros e w' [= <- <-]. split; [reflexivity|]. right.
        repeat split. eexists. split; [exact L|reflexivity]. }
    destruct (is_legal (chessboard (got_event t w))
                (mkMove sq (pressed_square w col row) (Some QUEEN))) eqn:Lq.
    { rewrite (performMove_fallback _ _ _ _ H L Hq Lq). cbn. destruct (appSocket w) eqn:A; cbn.
      - split; [now left|discriminate].
      - split; [right; exists sq; now split|].
        intros e w' [= <- <-]. split; [reflexivity|]. right.
        repeat split. eexists. split; [exact Lq|reflexivity]. }
    rewrite (performMove_refused _ _ _ _ H L Hq Lq).
    replace (lastReceived (got_event t w)) with (lastReceived w) by reflexivity.
    destruct (from_uci_obj (lastReceived w)) as [lm|e0] eqn:D; cbn.
    + split; [now left|discriminate].
    + split.
      * right. exists sq. split; [exact Q|exact S].
      * intros e w' [= <- <-]. split; [reflexivity|]. left. now repeat split.
  - destruct (from_uci_names _ _ B B) as [-> _]. cbn. split; [|discriminate].
    right. exists (pressed_square w col row). now split.
Qed.

(** X10. In a run of presses with no received move in between, at most one
    move is played and at most one token sent: either the board, the turn
    and the socket are as before, or exactly one legal move was played by
    [performMove] and the turn has passed to the remote side; then its token
    is the one message added to the socket when the connection is up, and
    nothing was sent when the connection is broken. *)
Theorem presses_send_at_most_one_token :
  forall (events : list MouseEvent) (w : MainWindow),
    (chessboard (after_clicks events w) = chessboard w
     /\ isMyMove (after_clicks events w) = isMyMove w
     /\ sent (after_clicks events w) = sent w)
    \/ (exists (t : string) (m : Move),
          isMyMove w = true
          /\ is_legal (chessboard w) m = true
          /\ chessboard (after_clicks events w) = push (chessboard w) m
          /\ isMyMove (after_clicks events w) = false
          /\ sent (after_clicks events w)
             = match appSocket w with
               | Connected => (sent w ++ [t])%list
               | Broken => sent w
               end).
Proof.
  induction events as [|ev events IH]; intros w; [now left|].
  change (after_clicks (ev :: events) w)
    with (after_clicks events (state_of (mousePressEvent ev w))).
  destruct (mousePressEvent_effect ev w)
    as [(B & T & S & A & _)|(t & m & T & P & B & F & A & S)].
  - destruct (IH (state_of (mousePressEvent ev w)))
      as [(B' & T' & S')|(t & m & T' & L & B' & F & S')].
    + left. now rewrite B', T', S', B, T, S.
    + right. exists t, m.
      rewrite B', F, S', A, <- B, <- T, <- S. now repeat split.
  - right. exists t, m.
    rewrite (after_clicks_out_of_turn events _ F).
    pose proof (performMove_ends_so (got_event t w) t) as K. rewrite P in K.
    inversion K as [|m' L Q| |].
    split; [exact T|]. split; [exact L|]. split; [exact B|]. split; [exact F|].
    destruct (appSocket w); [exact (proj2 S)|now rewrite S].
Qed.

(** X14. A move whose [send] raises is lost for good.  When two peers
    agree and a press on one side ends in [socket.error], that side has
    played a legal move on its own board and given the turn away while
    nothing went out; neither side has the turn any more, so from then on
    no press changes anything on either side. *)
Theorem failed_send_stops_the_game :
  forall (ev : MouseEvent) (a b a' : MainWindow),
    in_sync a b ->
    mousePressEvent ev a = Raised SocketError a' ->
    appSocket a = Broken
    /\ (exists m : Move,
          is_legal (chessboard a) m = true
          /\ chessboard a' = push (chessboard a) m)
    /\ sent a' = sent a
    /\ isMyMove a' = false
    /\ isMyMove b = false
    /\ forall events : list MouseEvent,
         after_clicks events a' = a' /\ after_clicks events b = b.
Proof.
  intros ev a b a' [_ Tb] R.
  destruct (mousePressEvent_effect ev a)
    as [(_ & _ & _ & _ & N)|(t & m & T & P & B & F & A & S)].
  { now destruct (N a'). }
  rewrite R in B, F, S. cbn [state_of] in B, F.
  assert (Fb : isMyMove b = false) by (rewrite T in Tb; now destruct (isMyMove b)).
  destruct (appSocket a) eqn:C.
  { destruct S as [S _]. discriminate S. }
  injection S as ->.
  pose proof (performMove_ends_so (got_event t a) t) as K. rewrite P in K.
  inversion K as [|m' L Q| |].
  split; [reflexivity|]. split; [now exists m|]. split; [reflexivity|].
  split; [reflexivity|]. split; [exact Fb|].
  intros events. split; now apply after_clicks_out_of_turn.
Qed.

End Presses.

Lemma first_press_witness :
  mousePressEvent (OnSquare 4 6) host0 = Returned tt (selected (pressed_square host0 4 6) host0)
  /\ pieceToMove (selected (pressed_square host0 4 6) host0)
     = (piece_at (chessboard host0) (pressed_square host0 4 6),
        Some (square_name (pressed_square host0 4 6)))
  /\ chessboard (selected (pressed_square host0 4 6) host0) = chessboard host0
  /\ isMyMove (selected (pressed_square host0 4 6) host0) = true
  /\ sent (selected (pressed_square host0 4 6) host0) = sent host0.
Proof.
  apply (first_press_selects_the_square host0 4 6); (lia || reflexivity).
Defined.

Lemma flipped_picture_witness :
  pressed_square client0 4 6 = pressed_square host0 (7 - 4) (7 - 6)
  /\ pressed_square client0 4 6 + pressed_square host0 4 6 = 63.
Proof.
  apply (flipped_picture_is_turned client0 host0 4 6); (lia || reflexivity).
Defined.

Lemma press_raises_witness :
  selection_ok (state_of (mousePressEvent (OnSquare 4 4)
                            (connection_lost (after_clicks [OnSquare 4 6] host0))))
  /\ forall (e : exn) (w' : MainWindow),
       mousePressEvent (OnSquare 4 4) (connection_lost (after_clicks [OnSquare 4 6] host0))
       = Raised e w' ->
       pieceToMove w' = pieceToMove (connection_lost (after_clicks [OnSquare 4 6] host0))
       /\ ((from_uci_obj (lastReceived (connection_lost (after_clicks [OnSquare 4 6] host0)))
            = Err e
            /\ chessboard w' = chessboard (connection_lost (after_clicks [OnSquare 4 6] host0))
            /\ isMyMove w' = isMyMove (connection_lost (after_clicks [OnSquare 4 6] host0))
            /\ sent w' = sent (connection_lost (after_clicks [OnSquare 4 6] host0)))
           \/ (e = SocketError
               /\ appSocket (connection_lost (after_clicks [OnSquare 4 6] host0)) = Broken
               /\ sent w' = sent (connection_lost (after_clicks [OnSquare 4 6] host0))
               /\ isMyMove w' = false
               /\ exists m : Move,
                    is_legal (chessboard (connection_lost (after_clicks [OnSquare 4 6] host0))) m
                    = true
                    /\ chessboard w'
                       = push (chessboard (connection_lost (after_clicks [OnSquare 4 6] host0)))
                              m)).
Proof.
  apply (press_raises_in_recovery_or_in_send
           (connection_lost (after_clicks [OnSquare 4 6] host0)) (OnSquare 4 4)).
  - right. exists 12. split; [lia|reflexivity].
  - split; lia.
Defined.

Lemma failed_send_witness :
  appSocket (connection_lost (after_clicks [OnSquare 4 6] host0)) = Broken
  /\ (exists m : Move,
        is_legal (chessboard (connection_lost (after_clicks [OnSquare 4 6] host0))) m = true
        /\ chessboard (set_isMyMove false
                         (moved (mkMove 12 28 None)
                            (got_event "e2e4"
                               (connection_lost (after_clicks [OnSquare 4 6] host0)))))
           = push (chessboard (connection_lost (after_clicks [OnSquare 4 6] host0))) m)
  /\ sent (set_isMyMove false
             (moved (mkMove 12 28 None)
                (got_event "e2e4" (connection_lost (after_clicks [OnSquare 4 6] host0)))))
     = sent (connection_lost (after_clicks [OnSquare 4 6] host0))
  /\ isMyMove (set_isMyMove false
                 (moved (mkMove 12 28 None)
                    (got_event "e2e4" (connection_lost (after_clicks [OnSquare 4 6] host0)))))
     = false
  /\ isMyMove client0 = false
  /\ forall events : list MouseEvent,
       after_clicks events
         (set_isMyMove false
            (moved (mkMove 12 28 None)
               (got_event "e2e4" (connection_lost (after_clicks [OnSquare 4 6] host0)))))
       = set_isMyMove false
           (moved (mkMove 12 28 None)
              (got_event "e2e4" (connection_lost (after_clicks [OnSquare 4 6] host0))))
       /\ after_clicks events client0 = client0.
Proof.
  apply (failed_send_stops_the_game (OnSquare 4 4)
           (connection_lost (after_clicks [OnSquare 4 6] host0)) client0).
  - split; vm_compute; reflexivity.
  - vm_compute. reflexivity.
Defined.

(** ** Two peers *)

Section Peers.
Context {Board : Type} {E : RulesEngine Board}.

Local Abbreviation MainWindow := (@MainWindow Board).

(** Whether [performMove] plays a token, and which move, depends on the
    board alone. *)
Lemma performMove_same_board (w1 w2 : MainWindow) (t : string) (m : Move) :
  chessboard w1 = chessboard w2 ->
  performMove t w1 = Returned true (moved m w1) ->
  performMove t w2 = Returned true (moved m w2).
Proof.
  intros B P.
  destruct (from_uci t) as [m0|e] eqn:H.
  2: { rewrite (performMove_undecoded _ _ _ H) in P. discriminate. }
  destruct (is_legal (chessboard w1) m0) eqn:L.
  { rewrite (performMove_legal _ _ _ H L) in P.
    assert (m0 = m) as ->.
    { apply (f_equal (fun o => lastMove (state_of o))) in P. cbn in P. now injection P. }
    rewrite B in L. exact (performMove_legal _ _ _ H L). }
  destruct (from_uci (t +:+ "q")) as [mq|e] eqn:Hq.
  2: { rewrite (performMove_fallback_undecoded _ _ _ _ H L Hq) in P. discriminate. }
  destruct (is_legal (chessboard w1) mq) eqn:Lq.
  2: { rewrite (performMove_refused _ _ _ _ H L Hq Lq) in P.
       destruct (from_uci_obj (lastReceived w1)); discriminate. }
  rewrite (performMove_fallback _ _ _ _ H L Hq Lq) in P.
  assert (mq = m) as ->.
  { apply (f_equal (fun o => lastMove (state_of o))) in P. cbn in P. now injection P. }
  rewrite B in L, Lq. exact (performMove_fallback _ _ _ _ H L Hq Lq).
Qed.

Lemma in_sync_sym (a b : MainWindow) : in_sync a b -> in_sync b a.
Proof.
  intros [B T]. split; [now symmetry|]. rewrite T. now destruct (isMyMove b).
Qed.

(** The reader never touches the connection. *)
Lemma _socketReader_keeps_appSocket (chunks : list string) (w : MainWindow) :
  appSocket (state_of (_socketReader chunks w)) = appSocket w.
Proof.
  revert w. induction chunks as [|data rest IH]; intros w; [reflexivity|].
  cbn [_socketReader]. unfold bind at 1.
  rewrite _socketReader_step_by_cases.
  destruct (isMyMove w); [now rewrite IH|].
  destruct (performMove_ends_so (received data w) data); try reflexivity; now rewrite IH.
Qed.

Lemma press_then_deliver_in_sync (ev : MouseEvent) (a b : MainWindow) :
  in_sync a b ->
  appSocket a = Connected ->
  in_sync (press_then_deliver ev (a, b)).1 (press_then_deliver ev (a, b)).2
  /\ appSocket (press_then_deliver ev (a, b)).1 = Connected
  /\ appSocket (press_then_deliver ev (a, b)).2 = appSocket b.
Proof.
  intros [B T] C. unfold press_then_deliver. cbn [fst snd].
  split; [|split; [|apply _socketReader_keeps_appSocket]].
  2: { destruct (mousePressEvent_effect ev a)
         as [(_ & _ & _ & A & _)|(_ & _ & _ & _ & _ & _ & A & _)]; now rewrite A. }
  destruct (mousePressEvent_effect ev a)
    as [(B' & T' & S & _ & _)|(t & m & Ta & P & B' & F & _ & S)].
  - rewrite S, drop_all. change (state_of (_socketReader [] b)) with b.
    split; [now rewrite B'|now rewrite T'].
  - rewrite C in S. destruct S as [_ S].
    rewrite S, drop_app_length. cbn [_socketReader]. unfold bind, ret.
    rewrite _socketReader_step_by_cases.
    assert (Fb : isMyMove b = false) by (rewrite Ta in T; now destruct (isMyMove b)).
    rewrite Fb.
    rewrite (performMove_same_board (got_event t a) (received t b) t m B P).
    split; [rewrite B'; cbn; now rewrite B|rewrite F; reflexivity].
Qed.

Lemma play_keeps_in_sync (presses : list (bool * MouseEvent)) (a b : MainWindow) :
  in_sync a b ->
  appSocket a = Connected ->
  appSocket b = Connected ->
  in_sync (play presses (a, b)).1 (play presses (a, b)).2.
Proof.
  revert a b. induction presses as [|[side ev] rest IH]; intros a b S Ca Cb; [exact S|].
  cbn [play]. destruct side.
  - pose proof (press_then_deliver_in_sync ev a b S Ca) as (S' & Ca' & Cb').
    destruct (press_then_deliver ev (a, b)) as [a' b']. cbn [fst snd] in *.
    apply (IH a' b' S' Ca'). now rewrite Cb'.
  - pose proof (press_then_deliver_in_sync ev b a (in_sync_sym a b S) Cb) as (S' & Cb' & Ca').
    cbn [fst snd].
    destruct (press_then_deliver ev (b, a)) as [b' a']. cbn [fst snd] in *.
    apply (IH a' b' (in_sync_sym b' a' S')); [now rewrite Ca'|exact Cb'].
Qed.

(** X11. Two peers that agree keep agreeing through a game while both
    connections are up: whoever presses where, if every token a press sends
    is read by the other side's reader before the next press, then after
    each press the two boards hold the same position and the turn is on
    exactly one side.  A token the sender played through the queen fallback
    is played through it by the receiver too. *)
Theorem peers_stay_in_sync :
  forall (presses : list (bool * MouseEvent)) (a b : MainWindow),
    in_sync a b ->
    appSocket a = Connected ->
    appSocket b = Connected ->
    chessboard (play presses (a, b)).1 = chessboard (play presses (a, b)).2
    /\ isMyMove (play presses (a, b)).1 = negb (isMyMove (play presses (a, b)).2).
Proof.
  intros presses a b S Ca Cb.
  destruct (play_keeps_in_sync presses a b S Ca Cb) as [B T].
  split; [exact B|exact T].
Qed.

End Peers.

Lemma peers_stay_in_sync_witness :
  chessboard (play [(true, OnSquare 4 6); (true, OnSquare 4 4);
                    (false, OnSquare 3 6); (false, OnSquare 3 4)] (host0, client0)).1
  = chessboard (play [(true, OnSquare 4 6); (true, OnSquare 4 4);
                      (false, OnSquare 3 6); (false, OnSquare 3 4)] (host0, client0)).2
  /\ isMyMove (play [(true, OnSquare 4 6); (true, OnSquare 4 4);
                     (false, OnSquare 3 6); (false, OnSquare 3 4)] (host0, client0)).1
     = negb (isMyMove (play [(true, OnSquare 4 6); (true, OnSquare 4 4);
                             (false, OnSquare 3 6); (false, OnSquare 3 4)] (host0, client0)).2).
Proof.
  apply (peers_stay_in_sync
           [(true, OnSquare 4 6); (true, OnSquare 4 4);
            (false, OnSquare 3 6); (false, OnSquare 3 4)] host0 client0).
  - split; vm_compute; reflexivity.
  - reflexivity.
  - reflexivity.
Defined.

(** ** Window geometry *)

(** X13. For every width and height a Qt geometry can hold (below [2^31],
    where the float product of line 89 is exact), the window is at least
    200 by 200, the board at least 150 wide, and the board widget lies
    inside the window with room to spare: every pixel the outer guard of
    [mousePressEvent] accepts is a pixel of the window.  Sizes that are
    large enough are kept as they are. *)
Theorem board_fits_in_the_window :
  forall width0 height0 : Z,
    (width0 < 2 ^ 31)%Z ->
    (height0 < 2 ^ 31)%Z ->
    let g := resizeWindow width0 height0 in
    (200 <= windowSize g /\ windowSize g <= width g /\ windowSize g <= height g
     /\ 3 * windowSize g < 2 ^ 53
     /\ 150 <= cbSize g /\ 18 <= svgX g /\ svgX g = svgY g
     /\ svgX g + cbSize g < windowSize g)%Z
    /\ (forall x y : Z,
          on_widget g x y = true -> (0 < x < width g /\ 0 < y < height g)%Z)
    /\ ((200 <= width0)%Z -> (200 <= height0)%Z ->
        width g = width0 /\ height g = height0).
Proof.
  intros width0 height0 Bw Bh g.
  assert (A : (200 <= windowSize g /\ windowSize g <= width g /\ windowSize g <= height g
               /\ 3 * windowSize g < 2 ^ 53
               /\ 150 <= cbSize g /\ 18 <= svgX g /\ svgX g = svgY g
               /\ svgX g + cbSize g < windowSize g)%Z).
  { unfold g, resizeWindow. cbn [windowSize width height cbSize svgX svgY].
    change (2 ^ 31)%Z with 2147483648%Z in *.
    change (2 ^ 53)%Z with 9007199254740992%Z.
    Z.div_mod_to_equations. lia. }
  split; [exact A|]. split.
  - intros x y H. unfold on_widget in H.
    apply andb_prop in H as [H Y2]. apply andb_prop in H as [H Y1].
    apply andb_prop in H as [X1 X2].
    apply Z.ltb_lt in X1, Y1. apply Z.leb_le in X2, Y2. lia.
  - intros W H. unfold g, resizeWindow. cbn [width height]. lia.
Qed.

Lemma board_fits_witness :
  (200 <= windowSize (resizeWindow 600 600)
   /\ windowSize (resizeWindow 600 600) <= width (resizeWindow 600 600)
   /\ windowSize (resizeWindow 600 600) <= height (resizeWindow 600 600)
   /\ 3 * windowSize (resizeWindow 600 600) < 2 ^ 53
   /\ 150 <= cbSize (resizeWindow 600 600)
   /\ 18 <= svgX (resizeWindow 600 600)
   /\ svgX (resizeWindow 600 600) = svgY (resizeWindow 600 600)
   /\ svgX (resizeWindow 600 600) + cbSize (resizeWindow 600 600)
      < windowSize (resizeWindow 600 600))%Z
  /\ (forall x y : Z,
        on_widget (resizeWindow 600 600) x y = true ->
        (0 < x < width (resizeWindow 600 600) /\ 0 < y < height (resizeWindow 600 600))%Z)
  /\ ((200 <= 600)%Z -> (200 <= 600)%Z ->
      width (resizeWindow 600 600) = 600%Z /\ height (resizeWindow 600 600) = 600%Z).
Proof.
  apply (board_fits_in_the_window 600 600); reflexivity.
Defined.
